(** * Homarr Navidrome web player backend ([webplayer.py]): a shallow embedding

    The development follows the layout of the Python module:
    - the runtime pieces the module leans on (byte strings, [hashlib.md5],
      [secrets.token_hex], [str.strip], [int], decoded JSON values,
      header maps);
    - the configuration block read from the environment;
    - [subsonic_auth] and the four API views, written in a small
      state-and-exception monad whose state is the cursor in the entropy
      source and the log of outbound upstream requests;
    - the properties of the views.

    Conventions.  A Python [str] is represented by bytes, held in a
    Rocq [string] (one [ascii] per byte): its UTF-8 encoding, where a
    byte that is not part of well-formed UTF-8 stands for the lone
    surrogate U+DC00 + byte under which the interpreter keeps such a
    byte of the environment.  On a text without such bytes
    [s.encode("utf-8")] is the identity on the representation; on the
    others it raises.  A JSON object is an association list read by its
    first matching key.  Header names are compared after folding the
    ASCII letters.  A view is described by the value it returns or the
    exception it raises; what the framework then puts on the wire is out
    of scope, except for the status it answers with. *)

From Stdlib Require Import ZArith List String Ascii Bool Lia.
From Stdlib Require Import Floats.SpecFloat.
Import ListNotations.

Local Open Scope string_scope.
Local Open Scope list_scope.
Local Open Scope Z_scope.

(** ** Bytes and hexadecimal text *)

Module Bytes.

Definition bytes_of_string (s : string) : list Z :=
  map (fun c => Z.of_N (N_of_ascii c)) (list_ascii_of_string s).

Definition hex_digit (n : Z) : ascii :=
  if n <? 10 then ascii_of_N (Z.to_N (48 + n))
  else ascii_of_N (Z.to_N (87 + n)).

(** [bytes.hex()]: two lower-case digits per byte, high nibble first. *)
Fixpoint hex (bs : list Z) : string :=
  match bs with
  | [] => EmptyString
  | b :: bs' =>
      String (hex_digit (Z.shiftr b 4))
             (String (hex_digit (Z.land b 15)) (hex bs'))
  end.

Definition is_byte (b : Z) : Prop := 0 <= b < 256.

Definition is_hex_char (c : ascii) : bool :=
  let n := Z.of_N (N_of_ascii c) in
  ((48 <=? n) && (n <=? 57)) || ((97 <=? n) && (n <=? 102)).

(** Little-endian encoding of the low [8 * n] bits of [x]. *)
Fixpoint le_bytes (n : nat) (x : Z) : list Z :=
  match n with
  | O => []
  | S n' => Z.land x 255 :: le_bytes n' (Z.shiftr x 8)
  end.

End Bytes.

(** ** MD5 (RFC 1321), as computed by [hashlib.md5] *)

Module MD5.
Import Bytes.

Definition mask32 : Z := 4294967295.

Definition add32 (x y : Z) : Z := Z.land (x + y) mask32.
Definition not32 (x : Z) : Z := Z.lxor x mask32.
Definition rotl32 (x c : Z) : Z :=
  Z.land (Z.lor (Z.shiftl x c) (Z.shiftr x (32 - c))) mask32.

Definition shifts : list Z :=
  [7; 12; 17; 22; 7; 12; 17; 22; 7; 12; 17; 22; 7; 12; 17; 22;
   5; 9; 14; 20; 5; 9; 14; 20; 5; 9; 14; 20; 5; 9; 14; 20;
   4; 11; 16; 23; 4; 11; 16; 23; 4; 11; 16; 23; 4; 11; 16; 23;
   6; 10; 15; 21; 6; 10; 15; 21; 6; 10; 15; 21; 6; 10; 15; 21].

(** [K i = floor (2^32 * |sin (i + 1)|)]. *)
Definition sines : list Z :=
  [3614090360; 3905402710; 606105819; 3250441966; 4118548399; 1200080426;
   2821735955; 4249261313; 1770035416; 2336552879; 4294925233; 2304563134;
   1804603682; 4254626195; 2792965006; 1236535329; 4129170786; 3225465664;
   643717713; 3921069994; 3593408605; 38016083; 3634488961; 3889429448;
   568446438; 3275163606; 4107603335; 1163531501; 2850285829; 4243563512;
   1735328473; 2368359562; 4294588738; 2272392833; 1839030562; 4259657740;
   2763975236; 1272893353; 4139469664; 3200236656; 681279174; 3936430074;
   3572445317; 76029189; 3654602809; 3873151461; 530742520; 3299628645;
   4096336452; 1126891415; 2878612391; 4237533241; 1700485571; 2399980690;
   4293915773; 2240044497; 1873313359; 4264355552; 2734768916; 1309151649;
   4149444226; 3174756917; 718787259; 3951481745].

Record state := mkState { sa : Z; sb : Z; sc : Z; sd : Z }.

Definition init : state :=
  mkState 1732584193 4023233417 2562383102 271733878.

(** Message padding: a [0x80] byte, zeros up to 56 modulo 64, then the
    bit length on 64 bits, little-endian. *)
Definition pad (msg : list Z) : list Z :=
  let len := Z.of_nat (List.length msg) in
  msg ++ [128] ++ repeat 0 (Z.to_nat ((55 - len) mod 64))
      ++ le_bytes 8 (8 * len).

Fixpoint le_word (bs : list Z) : Z :=
  match bs with
  | [] => 0
  | b :: bs' => b + 256 * le_word bs'
  end.

(** The sixteen 32-bit words of a 64-byte block. *)
Fixpoint words (n : nat) (block : list Z) : list Z :=
  match n with
  | O => []
  | S n' => le_word (firstn 4 block) :: words n' (skipn 4 block)
  end.

Definition round (m : list Z) (st : state) (i : nat) : state :=
  let iz := Z.of_nat i in
  let '(mkState a b c d) := st in
  let '(f, g) :=
    if iz <? 16 then (Z.lor (Z.land b c) (Z.land (not32 b) d), iz)
    else if iz <? 32 then
      (Z.lor (Z.land d b) (Z.land (not32 d) c), (5 * iz + 1) mod 16)
    else if iz <? 48 then (Z.lxor (Z.lxor b c) d, (3 * iz + 5) mod 16)
    else (Z.lxor c (Z.lor b (not32 d)), (7 * iz) mod 16) in
  let f' := add32 (add32 (add32 f a) (nth i sines 0)) (nth (Z.to_nat g) m 0) in
  mkState d (add32 b (rotl32 f' (nth i shifts 0))) b c.

Definition compress (st : state) (block : list Z) : state :=
  let m := words 16 block in
  let st' := fold_left (round m) (seq 0 64) st in
  mkState (add32 (sa st) (sa st')) (add32 (sb st) (sb st'))
          (add32 (sc st) (sc st')) (add32 (sd st) (sd st')).

Fixpoint blocks (n : nat) (st : state) (bs : list Z) : state :=
  match n with
  | O => st
  | S n' => blocks n' (compress st (firstn 64 bs)) (skipn 64 bs)
  end.

Definition digest (msg : list Z) : list Z :=
  let p := pad msg in
  let st := blocks (List.length p / 64) init p in
  le_bytes 4 (sa st) ++ le_bytes 4 (sb st)
    ++ le_bytes 4 (sc st) ++ le_bytes 4 (sd st).

Definition hexdigest (msg : list Z) : string := hex (digest msg).

End MD5.


(** ** The Python runtime pieces used by the module *)

Module Py.

Definition code (c : ascii) : Z := Z.of_N (N_of_ascii c).

Definition cont (c : ascii) : Z := Z.land (code c) 63.

Definition in_range (lo hi x : Z) : bool := (lo <=? x) && (x <=? hi).

(** A continuation byte. *)
Definition is_cont (c : ascii) : bool := in_range 128 191 (code c).

(** The second byte allowed after the lead byte [x] of a three-byte
    form: no overlong form, no surrogate. *)
Definition second3 (x : Z) (b : ascii) : bool :=
  if x =? 224 then in_range 160 191 (code b)
  else if x =? 237 then in_range 128 159 (code b)
  else is_cont b.

(** The second byte allowed after the lead byte [x] of a four-byte
    form: no overlong form, nothing above U+10FFFF. *)
Definition second4 (x : Z) (b : ascii) : bool :=
  if x =? 240 then in_range 144 191 (code b)
  else if x =? 244 then in_range 128 143 (code b)
  else is_cont b.

(** The characters of a [str]: code point and bytes of each.  A byte
    that does not begin a well-formed UTF-8 sequence is a character of
    its own, the lone surrogate U+DC00 + byte. *)
Fixpoint chars (s : string) : list (Z * string) :=
  match s with
  | EmptyString => []
  | String a r =>
      let x := code a in
      let one :=
        ((if x <? 128 then x else 56320 + x), String a EmptyString)
          :: chars r in
      if (x <? 194) || (244 <? x) then one
      else
        match r with
        | EmptyString => one
        | String b r2 =>
            if x <? 224 then
              if is_cont b then
                ((x - 192) * 64 + cont b, String a (String b EmptyString))
                  :: chars r2
              else one
            else
              match r2 with
              | EmptyString => one
              | String c r3 =>
                  if x <? 240 then
                    if second3 x b && is_cont c then
                      (((x - 224) * 64 + cont b) * 64 + cont c,
                        String a (String b (String c EmptyString)))
                        :: chars r3
                    else one
                  else
                    match r3 with
                    | EmptyString => one
                    | String d r4 =>
                        if second4 x b && is_cont c && is_cont d then
                          ((((x - 240) * 64 + cont b) * 64 + cont c) * 64
                             + cont d,
                            String a
                              (String b (String c (String d EmptyString))))
                            :: chars r4
                        else one
                    end
              end
        end
  end.

(** No character of the text is a lone surrogate: the text has a UTF-8
    encoding. *)
Definition encodable (s : string) : bool :=
  forallb (fun c => negb (in_range 56320 57343 (fst c))) (chars s).

(** Every byte of the text is ASCII. *)
Definition ascii_only (s : string) : bool :=
  forallb (fun c => code c <? 128) (list_ascii_of_string s).

Definition join (l : list (Z * string)) : string :=
  fold_right (fun c acc => (snd c ++ acc)%string) EmptyString l.

(** [str.isspace] on one character (the whitespace set of [str.strip]). *)
Definition isspace (cp : Z) : bool :=
  in_range 9 13 cp || in_range 28 32 cp || (cp =? 133) || (cp =? 160)
  || (cp =? 5760) || in_range 8192 8202 cp || (cp =? 8232) || (cp =? 8233)
  || (cp =? 8239) || (cp =? 8287) || (cp =? 12288).

Fixpoint lstrip_with {A : Type} (sp : A -> bool) (l : list A) : list A :=
  match l with
  | [] => []
  | c :: r => if sp c then lstrip_with sp r else l
  end.

Definition strip_with {A : Type} (sp : A -> bool) (l : list A) : list A :=
  rev (lstrip_with sp (rev (lstrip_with sp l))).

(** [s.strip()] *)
Definition strip (s : string) : string :=
  join (strip_with (fun c => isspace (fst c)) (chars s)).

(** Truth value of a [str]. *)
Definition str_truthy (s : string) : bool :=
  match s with EmptyString => false | _ => true end.

(** *** [int(s)] on a [str], base ten *)

(** First code point of every block of ten decimal digits (Unicode
    category Nd, Unicode 14). *)
Definition digit_zeros : list Z :=
  [48; 1632; 1776; 1984; 2406; 2534; 2662; 2790; 2918; 3046; 3174; 3302;
   3430; 3558; 3664; 3792; 3872; 4160; 4240; 6112; 6160; 6470; 6608; 6784;
   6800; 6992; 7088; 7232; 7248; 42528; 43216; 43264; 43472; 43504; 43600;
   44016; 65296; 66720; 68912; 69734; 69872; 69942; 70096; 70384; 70736;
   70864; 71248; 71360; 71472; 71904; 72016; 72784; 73040; 73120; 92768;
   92864; 93008; 120782; 120792; 120802; 120812; 120822; 123200; 123632;
   125264; 130032].

Definition digit_value (cp : Z) : option Z :=
  match find (fun z => in_range z (z + 9) cp) digit_zeros with
  | Some z => Some (cp - z)
  | None => None
  end.

(** Whitespace accepted around the number: the ASCII set of the C
    parser, and every non-ASCII [isspace] character, which the
    interpreter first rewrites to a blank. *)
Definition int_space (cp : Z) : bool :=
  in_range 9 13 cp || (cp =? 32) || ((128 <=? cp) && isspace cp).

(** Digits, with single underscores allowed between two digits; yields
    the value and the number of digits read. *)
Fixpoint int_digits (l : list Z) (acc n : Z) (after_digit : bool)
  : option (Z * Z) :=
  match l with
  | [] => if after_digit then Some (acc, n) else None
  | cp :: r =>
      if cp =? 95 then
        if after_digit then int_digits r acc n false else None
      else
        match digit_value cp with
        | Some d => int_digits r (10 * acc + d) (n + 1) true
        | None => None
        end
  end.

(** Default of [sys.get_int_max_str_digits()]. *)
Definition int_max_str_digits : Z := 4300.

Definition int_unsigned (l : list Z) : option Z :=
  match int_digits l 0 0 false with
  | Some (v, n) => if n >? int_max_str_digits then None else Some v
  | None => None
  end.

(** [int(s)]; [None] stands for the [ValueError] it raises. *)
Definition int_of_str (s : string) : option Z :=
  match strip_with int_space (map fst (chars s)) with
  | 43 :: r => int_unsigned r
  | 45 :: r => option_map Z.opp (int_unsigned r)
  | l => int_unsigned l
  end.

End Py.

(** ** Python values, as [json.loads] and the view functions build them *)

#[warnings="-register-all"]
Inductive value : Type :=
| VNone
| VBool (b : bool)
| VInt (n : Z)
| VFloat (f : spec_float)
| VStr (s : string)
| VList (l : list value)
| VDict (d : list (string * value)).

(** A [dict] with [str] keys, in insertion order. *)
Definition dict : Type := list (string * value).

(** Truth value of an object ([bool(v)]). *)
Definition truthy (v : value) : bool :=
  match v with
  | VNone => false
  | VBool b => b
  | VInt n => negb (n =? 0)
  | VFloat f => match f with S754_zero _ => false | _ => true end
  | VStr s => Py.str_truthy s
  | VList l => match l with [] => false | _ :: _ => true end
  | VDict d => match d with [] => false | _ :: _ => true end
  end.

(** [a or b] *)
Definition py_or (a b : value) : value := if truthy a then a else b.

Fixpoint dict_get (d : dict) (k : string) : option value :=
  match d with
  | [] => None
  | (k', v) :: r => if String.eqb k' k then Some v else dict_get r k
  end.

(** [d[k] = v]: an existing key keeps its place. *)
Fixpoint dict_set (k : string) (v : value) (d : dict) : dict :=
  match d with
  | [] => [(k, v)]
  | (k', v') :: r =>
      if String.eqb k' k then (k', v) :: r else (k', v') :: dict_set k v r
  end.

(** [d1 | d2] *)
Definition dict_or (d1 d2 : dict) : dict :=
  fold_left (fun d kv => dict_set (fst kv) (snd kv) d) d2 d1.

(** ** Exceptions and the two monads *)

Inductive exn : Type :=
| HTTPException (code : Z) (description : string)
| ValueError
| UnicodeEncodeError
| JSONDecodeError
| AttributeError
| TypeError
| ConnectionError.

Inductive result (A : Type) : Type :=
| Ok (a : A)
| Raise (e : exn).

Arguments Ok {A} a.
Arguments Raise {A} e.

Class Monad (m : Type -> Type) : Type := {
  ret : forall {A : Type}, A -> m A;
  bind : forall {A B : Type}, m A -> (A -> m B) -> m B
}.

Notation "x <- c ;; k" := (bind c (fun x => k))
  (at level 61, c at next level, right associativity).

#[export] Instance Monad_result : Monad result := {
  ret := fun A a => Ok a;
  bind := fun A B c k => match c with Ok a => k a | Raise e => Raise e end
}.

(** [s.encode("utf-8")]: the bytes of the representation, unless the
    text holds a lone surrogate. *)
Definition encode_utf8 (s : string) : result (list Z) :=
  if Py.encodable s then Ok (Bytes.bytes_of_string s)
  else Raise UnicodeEncodeError.

(** [md5_hex(s)]: [hashlib.md5(s.encode("utf-8")).hexdigest()]. *)
Definition md5_hex (s : string) : result string :=
  bs <- encode_utf8 s ;;
  ret (MD5.hexdigest bs).

(** [v.get(k, default)]: only a [dict] has the method. *)
Definition py_get (v : value) (k : string) (default : value) : result value :=
  match v with
  | VDict d => Ok (match dict_get d k with Some x => x | None => default end)
  | _ => Raise AttributeError
  end.

(** The items a [for] loop draws from an object. *)
Definition py_iter (v : value) : result (list value) :=
  match v with
  | VList l => Ok l
  | VStr s => Ok (map (fun c => VStr (snd c)) (Py.chars s))
  | VDict d => Ok (map (fun kv => VStr (fst kv)) d)
  | _ => Raise TypeError
  end.

Definition isinstance_dict (v : value) : bool :=
  match v with VDict _ => true | _ => false end.

(** [int(args.get(k, default))]: the default is already an [int]. *)
Definition int_arg (a : option string) (default : Z) : result Z :=
  match a with
  | None => Ok default
  | Some s =>
      match Py.int_of_str s with
      | Some n => Ok n
      | None => Raise ValueError
      end
  end.

(** ** HTTP messages *)

Module Http.

Definition headers : Type := list (string * string).

Definition lower_ascii (c : ascii) : ascii :=
  let n := Py.code c in
  if Py.in_range 65 90 n then ascii_of_N (Z.to_N (n + 32)) else c.

Fixpoint lower (s : string) : string :=
  match s with
  | EmptyString => EmptyString
  | String c r => String (lower_ascii c) (lower r)
  end.

(** Header names compare without regard to case. *)
Definition ieq (a b : string) : bool := String.eqb (lower a) (lower b).

Fixpoint get (h : headers) (k : string) : option string :=
  match h with
  | [] => None
  | (k', v) :: r => if ieq k' k then Some v else get r k
  end.

Definition remove (k : string) (h : headers) : headers :=
  filter (fun kv => negb (ieq (fst kv) k)) h.

(** [h[k] = v]: replaces the first entry of that name and drops the
    others, or appends. *)
Fixpoint set (k v : string) (h : headers) : headers :=
  match h with
  | [] => [(k, v)]
  | (k', v') :: r =>
      if ieq k' k then (k, v) :: remove k r else (k', v') :: set k v r
  end.

Definition setdefault (k v : string) (h : headers) : headers :=
  match get h k with
  | Some _ => h
  | None => set k v h
  end.

End Http.

(** What [requests.get] is called with. *)
Record upstream_request : Type := mkUpstreamRequest {
  url : string;
  params : dict;
  req_headers : Http.headers;
  stream : bool
}.

(** What [requests.get] returns: [json_body] is the value of [r.json()],
    [None] when the body does not decode; [content] is what
    [iter_content] yields, chunk by chunk: the body after [requests] has
    undone any [Content-Encoding], which need not be the bytes on the
    wire. *)
Record upstream_response : Type := mkUpstreamResponse {
  status_code : Z;
  up_headers : Http.headers;
  json_body : option value;
  content : list string
}.

Inductive upstream_reply : Type :=
| Replies (r : upstream_response)
| Unreachable.

(** The inbound request as the views read it: [request.args] in query
    order and [request.headers]. *)
Record request : Type := mkRequest {
  args : list (string * string);
  headers : Http.headers
}.

(** [request.args.get(k)]: the first value of that name. *)
Fixpoint args_get (a : list (string * string)) (k : string) : option string :=
  match a with
  | [] => None
  | (k', v) :: r => if String.eqb k' k then Some v else args_get r k
  end.

Inductive payload : Type :=
| JsonBody (v : value)
| Chunks (l : list string).

Record Response : Type := mkResponse {
  status : Z;
  resp_headers : Http.headers;
  body : payload
}.

(** [Response(body, status=...)]: built without [mimetype] or
    [content_type], the Flask response class installs its
    [default_mimetype], [text/html], as the [Content-Type] header. *)
Definition new_Response (chunks : list string) (st : Z) : Response :=
  mkResponse st [("Content-Type", "text/html; charset=utf-8")] (Chunks chunks).

(** [jsonify] called with keyword arguments. *)
Definition jsonify (d : dict) : Response :=
  mkResponse 200 [("Content-Type", "application/json")] (JsonBody (VDict d)).

(** A view returning [(response, status)]. *)
Definition with_status (r : Response) (st : Z) : Response :=
  mkResponse st (resp_headers r) (body r).

Definition set_header (k v : string) (r : Response) : Response :=
  mkResponse (status r) (Http.set k v (resp_headers r)) (body r).

Definition setdefault_header (k v : string) (r : Response) : Response :=
  mkResponse (status r) (Http.setdefault k v (resp_headers r)) (body r).

(** ** Configuration *)

Record config : Type := mkConfig {
  NAVIDROME_URL : string;
  SUBSONIC_USER : string;
  SUBSONIC_PASSWORD : string;
  SUBSONIC_VERSION : string;
  SUBSONIC_CLIENT : string
}.

Definition SUBSONIC_FORMAT : string := "json".

(** [os.environ] *)
Definition environ : Type := string -> option string.

(** [a or b] where [a] is [os.environ.get(k)]. *)
Definition env_or (a : option string) (b : string) : string :=
  match a with
  | Some s => if Py.str_truthy s then s else b
  | None => b
  end.

(** [os.environ.get(k, default)] *)
Definition env_get (e : environ) (k default : string) : string :=
  match e k with
  | Some s => s
  | None => default
  end.

Definition load_config (e : environ) : config :=
  {| NAVIDROME_URL :=
       env_or (e "NAVIDROME_URL")
         (env_or (e "NAVIDROME_BASE_URL") "http://127.0.0.1:4533");
     SUBSONIC_USER :=
       env_or (e "SUBSONIC_USER") (env_get e "NAVIDROME_USER" "");
     SUBSONIC_PASSWORD :=
       env_or (e "SUBSONIC_PASSWORD")
         (env_or (e "NAVIDROME_PASS") (env_get e "NAVIDROME_PASSWORD" ""));
     SUBSONIC_VERSION := env_get e "SUBSONIC_VERSION" "1.16.1";
     SUBSONIC_CLIENT := env_get e "SUBSONIC_CLIENT" "homarr-webplayer" |}.

(** ** The process: configuration, entropy, upstream; cursor and log *)

Record env : Type := mkEnv {
  cfg : config;
  entropy : nat -> Byte.byte;
  upstream : upstream_request -> upstream_reply
}.

Record world : Type := mkWorld {
  cursor : nat;
  sent : list upstream_request
}.

Definition start : world := mkWorld 0 [].

Definition M (A : Type) : Type := env -> world -> result A * world.

#[export] Instance Monad_M : Monad M := {
  ret := fun A a => fun _ w => (Ok a, w);
  bind := fun A B c k => fun e w =>
    match c e w with
    | (Ok a, w') => k a e w'
    | (Raise x, w') => (Raise x, w')
    end
}.

Definition raise {A : Type} (x : exn) : M A := fun _ w => (Raise x, w).

Definition lift {A : Type} (r : result A) : M A := fun _ w => (r, w).

Definition ask : M config := fun e w => (Ok (cfg e), w).

(** [flask.abort(code, description)] *)
Definition abort {A : Type} (code : Z) (description : string) : M A :=
  raise (HTTPException code description).

Definition entropy_bytes (e : env) (from n : nat) : list Z :=
  map (fun i => Z.of_N (Byte.to_N (entropy e i))) (seq from n).

(** [secrets.token_hex(n)]: [n] fresh bytes of entropy, in hexadecimal. *)
Definition token_hex (n : nat) : M string :=
  fun e w =>
    (Ok (Bytes.hex (entropy_bytes e (cursor w) n)),
     mkWorld (cursor w + n) (sent w)).

(** [requests.get(url, params=..., headers=..., stream=...)]: the call
    is logged with its arguments, and what the library and the network
    make of them is the environment's: a response, or none, in which
    case the library raises. *)
Definition requests_get (u : string) (p : dict) (h : Http.headers) (s : bool)
  : M upstream_response :=
  fun e w =>
    let rq := mkUpstreamRequest u p h s in
    let w' := mkWorld (cursor w) (sent w ++ [rq]) in
    match upstream e rq with
    | Replies r => (Ok r, w')
    | Unreachable => (Raise ConnectionError, w')
    end.

(** [r.json()] *)
Definition json (r : upstream_response) : result value :=
  match json_body r with
  | Some v => Ok v
  | None => Raise JSONDecodeError
  end.

(** What the framework answers for the outcome of a view. *)
Definition http_status (o : result Response) : Z :=
  match o with
  | Ok r => status r
  | Raise (HTTPException c _) => c
  | Raise _ => 500
  end.

(** ** The views *)

Definition subsonic_auth : M dict :=
  c <- ask ;;
  if negb (Py.str_truthy (SUBSONIC_USER c))
     || negb (Py.str_truthy (SUBSONIC_PASSWORD c))
  then abort 500 "SUBSONIC_USER and SUBSONIC_PASSWORD env vars must be set"
  else
    salt <- token_hex 8 ;;
    token <- lift (md5_hex (SUBSONIC_PASSWORD c ++ salt)%string) ;;
    ret [("u", VStr (SUBSONIC_USER c));
         ("t", VStr token);
         ("s", VStr salt);
         ("v", VStr (SUBSONIC_VERSION c));
         ("c", VStr (SUBSONIC_CLIENT c));
         ("f", VStr SUBSONIC_FORMAT)].

(** The generator [gen()] of the two proxies: the non-empty chunks. *)
Definition gen (up : upstream_response) : list string :=
  filter Py.str_truthy (content up).

(** The loop copying the upstream headers named in [names]. *)
Definition copy_headers (names : list string) (up : upstream_response)
  (resp : Response) : Response :=
  fold_left
    (fun r h =>
       match Http.get (up_headers up) h with
       | Some v => if Py.str_truthy v then set_header h v r else r
       | None => r
       end)
    names resp.

Definition cover_headers : list string :=
  ["Content-Type"; "Content-Length"; "Cache-Control"; "ETag";
   "Last-Modified"; "Accept-Ranges"].

(** [api_cover] from [Response(...)] to its [return]. *)
Definition cover_reply (up : upstream_response) : Response :=
  let resp := new_Response (gen up) (status_code up) in
  let resp := copy_headers cover_headers up resp in
  setdefault_header "Content-Type" "image/jpeg" resp.

Definition api_cover (cover_id : string) : M Response :=
  c <- ask ;;
  auth <- subsonic_auth ;;
  let params := dict_or auth [("id", VStr cover_id)] in
  up <- requests_get (NAVIDROME_URL c ++ "/rest/getCoverArt")%string
          params [] true ;;
  ret (cover_reply up).

Definition passthrough : list string :=
  ["Content-Type"; "Content-Length"; "Accept-Ranges"; "Content-Range";
   "Cache-Control"; "ETag"; "Last-Modified"; "Content-Disposition"].

(** The [headers] dict of [api_stream]: the client's [Range], if any. *)
Definition forwarded_headers (rq : request) : Http.headers :=
  match Http.get (headers rq) "Range" with
  | Some rng => if Py.str_truthy rng then [("Range", rng)] else []
  | None => []
  end.

(** [api_stream] from [Response(...)] to its [return]. *)
Definition stream_reply (up : upstream_response) : Response :=
  let resp := new_Response (gen up) (status_code up) in
  let resp := copy_headers passthrough up resp in
  let resp := setdefault_header "Accept-Ranges" "bytes" resp in
  setdefault_header "Content-Type" "audio/mpeg" resp.

Definition api_stream (rq : request) (song_id : string) : M Response :=
  c <- ask ;;
  auth <- subsonic_auth ;;
  let params := dict_or auth [("id", VStr song_id)] in
  let hdrs := forwarded_headers rq in
  up <- requests_get (NAVIDROME_URL c ++ "/rest/download")%string
          params hdrs true ;;
  ret (stream_reply up).

(** The dict appended to the payload for one song. *)
Definition song_summary (s : value) : result value :=
  id <- py_get s "id" VNone ;;
  title <- py_get s "title" (VStr "Unknown") ;;
  artist <- py_get s "artist" (VStr "Unknown") ;;
  cover <- py_get s "coverArt" VNone ;;
  art <- (if truthy cover then ret cover else py_get s "id" VNone) ;;
  ret (VDict [("id", id); ("title", title); ("artist", artist);
              ("coverArt", art)]).

(** The loop [for s in songs] of the two query views. *)
Fixpoint collect (songs : list value) (acc : list value)
  : result (list value) :=
  match songs with
  | [] => Ok acc
  | s :: r =>
      if negb (truthy s) then collect r acc
      else d <- song_summary s ;; collect r (acc ++ [d])
  end.

(** From the value bound to [songs] to the payload list. *)
Definition summaries (songs : value) : result (list value) :=
  let songs := if isinstance_dict songs then VList [songs] else songs in
  items <- py_iter songs ;;
  collect items [].

Definition invalid_json : Response :=
  with_status
    (jsonify [("success", VBool false);
              ("error", VStr "Upstream invalid JSON")]) 502.

(** [api_random_list] from the [try] around [r.json()] to its [return]:
    nothing there touches the process state. *)
Definition random_list_reply (r : upstream_response) : result Response :=
  match (j <- json r ;; py_get j "subsonic-response" (VDict [])) with
  | Raise _ => ret invalid_json
  | Ok js =>
      rs <- py_get js "randomSongs" (VDict []) ;;
      sg <- py_get rs "song" (VList []) ;;
      let songs := py_or sg (VList []) in
      payload <- summaries songs ;;
      ret (jsonify [("success", VBool true); ("songs", VList payload)])
  end.

Definition api_random_list (rq : request) : M Response :=
  let size :=
    match int_arg (args_get (args rq) "size") 30 with
    | Ok n => n
    | Raise _ => 30
    end in
  c <- ask ;;
  auth <- subsonic_auth ;;
  let params := dict_or auth [("size", VInt size)] in
  r <- requests_get (NAVIDROME_URL c ++ "/rest/getRandomSongs")%string
         params [] false ;;
  lift (random_list_reply r).

(** [api_search] from the [try] around [r.json()] to its [return]. *)
Definition search_reply (r : upstream_response) : result Response :=
  match (j <- json r ;; py_get j "subsonic-response" (VDict [])) with
  | Raise _ => ret invalid_json
  | Ok js =>
      sr <- py_get js "searchResult3" (VDict []) ;;
      let res := py_or sr (VDict []) in
      sg <- py_get res "song" (VList []) ;;
      let songs := py_or sg (VList []) in
      results <- summaries songs ;;
      ret (jsonify [("success", VBool true); ("results", VList results)])
  end.

Definition no_query : Response :=
  with_status
    (jsonify [("success", VBool false); ("error", VStr "No query")]) 400.

(** [(request.args.get("query") or "").strip()] *)
Definition search_query (rq : request) : string :=
  Py.strip (match args_get (args rq) "query" with
            | Some s => if Py.str_truthy s then s else ""
            | None => ""
            end).

Definition api_search (rq : request) : M Response :=
  let q := search_query rq in
  if negb (Py.str_truthy q) then ret no_query
  else
    c <- ask ;;
    auth <- subsonic_auth ;;
    count <- lift (int_arg (args_get (args rq) "songCount") 25) ;;
    let params :=
      dict_or auth [("query", VStr q); ("songCount", VInt count);
                    ("albumCount", VInt 0); ("artistCount", VInt 0)] in
    r <- requests_get (NAVIDROME_URL c ++ "/rest/search3")%string
           params [] false ;;
    lift (search_reply r).

(** ** Vocabulary of the statements *)

(** Neither credential is the empty string. *)
Definition has_credentials (c : config) : bool :=
  Py.str_truthy (SUBSONIC_USER c) && Py.str_truthy (SUBSONIC_PASSWORD c).

(** What [subsonic_auth] raises when a credential is missing. *)
Definition missing_credentials : exn :=
  HTTPException 500 "SUBSONIC_USER and SUBSONIC_PASSWORD env vars must be set".

(** The MD5 digest, in hexadecimal, of the bytes that represent [s]. *)
Definition hexdigest_of (s : string) : string :=
  MD5.hexdigest (Bytes.bytes_of_string s).

(** The mapping [subsonic_auth] returns when the cursor is at [n], the
    password having a UTF-8 encoding. *)
Definition auth_at (e : env) (n : nat) : dict :=
  [("u", VStr (SUBSONIC_USER (cfg e)));
   ("t", VStr (hexdigest_of (SUBSONIC_PASSWORD (cfg e)
                             ++ Bytes.hex (entropy_bytes e n 8))));
   ("s", VStr (Bytes.hex (entropy_bytes e n 8)));
   ("v", VStr (SUBSONIC_VERSION (cfg e)));
   ("c", VStr (SUBSONIC_CLIENT (cfg e)));
   ("f", VStr "json")].

(** The outcome of sending [q] from [w], the cursor then being at [c],
    and handing the reply to [f]. *)
Definition exchange (e : env) (w : world) (c : nat) (q : upstream_request)
  (f : upstream_response -> result Response) : result Response * world :=
  let w' := mkWorld c (sent w ++ [q]) in
  match upstream e q with
  | Replies r => (f r, w')
  | Unreachable => (Raise ConnectionError, w')
  end.

(** The size [api_random_list] asks for. *)
Definition requested_size (rq : request) : Z :=
  match args_get (args rq) "size" with
  | None => 30
  | Some s =>
      match Py.int_of_str s with
      | Some n => n
      | None => 30
      end
  end.

(** Running the view [m] from [w] sends exactly one upstream request,
    and the upstream's reply to it is [a]. *)
Definition answered (e : env) (m : M Response) (w : world)
  (a : upstream_reply) : Prop :=
  exists q, sent (snd (m e w)) = sent w ++ [q] /\ upstream e q = a.

(** The same, keeping the request at hand. *)
Definition sends (e : env) (m : M Response) (w : world)
  (q : upstream_request) : Prop :=
  sent (snd (m e w)) = sent w ++ [q].

(** The body decoded, and the decoded value is a JSON object. *)
Definition decodes_to_object (r : upstream_response) : bool :=
  match json_body r with
  | Some (VDict _) => true
  | _ => false
  end.

(** The envelope as the specification describes it: the outer JSON
    wrapper of every Subsonic answer, an object whose
    ["subsonic-response"] member is an object. *)
Definition expected_envelope (r : upstream_response) : bool :=
  match json_body r with
  | Some (VDict top) =>
      match dict_get top "subsonic-response" with
      | Some (VDict _) => true
      | _ => false
      end
  | _ => false
  end.

(** An upstream failure visible in the reply: an HTTP error status, or a
    Subsonic envelope whose [status] member is ["failed"]. *)
Definition upstream_failed (r : upstream_response) : bool :=
  (400 <=? status_code r)
  || match json_body r with
     | Some (VDict top) =>
         match dict_get top "subsonic-response" with
         | Some (VDict js) =>
             match dict_get js "status" with
             | Some (VStr s) => String.eqb s "failed"
             | _ => false
             end
         | _ => false
         end
     | _ => false
     end.

(** The failure is surfaced to the caller: an HTTP error status, or a
    body [{success: false, ...}]. *)
Definition surfaced (o : result Response) : bool :=
  (400 <=? http_status o)
  || match o with
     | Ok (mkResponse _ _ (JsonBody (VDict d))) =>
         match dict_get d "success" with
         | Some (VBool false) => true
         | _ => false
         end
     | _ => false
     end.

(** The inner song field of a parsed envelope: the ["song"] member of
    the object [inner] of the ["subsonic-response"] object. *)
Definition inner_song (inner : string) (r : upstream_response)
  : option value :=
  match json_body r with
  | Some (VDict top) =>
      match dict_get top "subsonic-response" with
      | Some (VDict js) =>
          match dict_get js inner with
          | Some (VDict rs) => dict_get rs "song"
          | _ => None
          end
      | _ => None
      end
  | _ => None
  end.

(** A song field as upstream sends it: a single object, or a list whose
    entries are objects or null/empty. *)
Definition song_field_ok (sg : value) : bool :=
  match sg with
  | VDict _ => true
  | VList l => forallb (fun s => negb (truthy s) || isinstance_dict s) l
  | _ => false
  end.

(** Normalisation to a list: a single object becomes a one-element list. *)
Definition song_entries (sg : value) : list value :=
  match sg with
  | VDict _ => [sg]
  | VList l => l
  | _ => []
  end.

Definition field (d : dict) (k : string) (default : value) : value :=
  match dict_get d k with
  | Some x => x
  | None => default
  end.

(** The song summary: [id], [title] and [artist] defaulting to
    ["Unknown"], [coverArt] falling back to the id. *)
Definition song_view (s : value) : value :=
  match s with
  | VDict d =>
      VDict [("id", field d "id" VNone);
             ("title", field d "title" (VStr "Unknown"));
             ("artist", field d "artist" (VStr "Unknown"));
             ("coverArt",
               if truthy (field d "coverArt" VNone)
               then field d "coverArt" VNone
               else field d "id" VNone)]
  | _ => VNone
  end.

(** Reading a member of a JSON object value. *)
Definition member (v : value) (k : string) : option value :=
  match v with
  | VDict d => dict_get d k
  | _ => None
  end.

Definition keys (v : value) : list string :=
  match v with
  | VDict d => map fst d
  | _ => []
  end.

(** ** A sample process, for the concrete runs *)

Definition demo_entropy (i : nat) : Byte.byte :=
  match Byte.of_N (N.of_nat (17 * i + 3) mod 256) with
  | Some b => b
  | None => Byte.x00
  end.

Definition demo_config : config :=
  mkConfig "http://127.0.0.1:4533" "alice" "secret" "1.16.1"
    "homarr-webplayer".

(** No credentials in the environment. *)
Definition bare_config : config :=
  load_config (fun _ => None).

(** A process whose upstream gives the same reply to every request. *)
Definition demo_env (a : upstream_reply) : env :=
  mkEnv demo_config demo_entropy (fun _ => a).

Definition bare_env (a : upstream_reply) : env :=
  mkEnv bare_config demo_entropy (fun _ => a).

(** A partial-content reply to a range request. *)
Definition partial_content : upstream_response :=
  mkUpstreamResponse 206
    [("Content-Type", "audio/mpeg"); ("Content-Range", "bytes 5-9/10");
     ("Content-Length", "5")]
    None ["hello"].

(** A reply carrying header fields with an empty value. *)
Definition empty_valued : upstream_response :=
  mkUpstreamResponse 200
    [("Content-Type", "image/png"); ("ETag", ""); ("Content-Range", "")]
    None ["x"].

(** An upstream in trouble: status 500 and a JSON object that is not a
    Subsonic envelope. *)
Definition failed_upstream : upstream_response :=
  mkUpstreamResponse 500 []
    (Some (VDict [("error", VStr "internal error")])) [].

(** A Subsonic envelope reporting a failure. *)
Definition subsonic_failure : upstream_response :=
  mkUpstreamResponse 200 []
    (Some (VDict
       [("subsonic-response",
         VDict [("status", VStr "failed"); ("version", VStr "1.16.1");
                ("error",
                 VDict [("code", VInt 40);
                        ("message", VStr "Wrong username or password")])])]))
    [].

(** A body that is not JSON, and one that is JSON but not an object. *)
Definition not_json : upstream_response :=
  mkUpstreamResponse 200 [] None [].

Definition json_array : upstream_response :=
  mkUpstreamResponse 200 [] (Some (VList [])) [].

(** An envelope answering both queries: one song as a single object,
    and a list with a null entry. *)
Definition two_answers : upstream_response :=
  mkUpstreamResponse 200 []
    (Some (VDict
       [("subsonic-response",
         VDict
           [("status", VStr "ok");
            ("randomSongs",
             VDict [("song",
                     VDict [("id", VStr "so-1"); ("title", VStr "One")])]);
            ("searchResult3",
             VDict [("song",
                     VList [VNone;
                            VDict [("id", VStr "so-2");
                                   ("artist", VStr "Two");
                                   ("coverArt", VStr "al-2")]])])])]))
    [].

(** ** Further vocabulary *)

(** [PORT = int(os.environ.get("PORT", "5069"))]: the default is a text,
    converted like a value read from the environment. *)
Definition load_port (e : environ) : result Z :=
  match Py.int_of_str (env_get e "PORT" "5069") with
  | Some n => Ok n
  | None => Raise ValueError
  end.

(** The variable [k] is set, to a text that is not empty. *)
Definition is_set (e : environ) (k : string) : bool :=
  match e k with
  | Some s => Py.str_truthy s
  | None => false
  end.

(** A decoded object that holds no song under [inner]: a member on the
    way to the [song] member is missing, or the [song] member is null or
    empty. *)
Definition holds_no_song (inner : string) (top : dict) : bool :=
  match dict_get top "subsonic-response" with
  | None => true
  | Some (VDict js) =>
      match dict_get js inner with
      | None => true
      | Some (VDict rs) =>
          match dict_get rs "song" with
          | None => true
          | Some sg => negb (truthy sg)
          end
      | Some _ => false
      end
  | Some _ => false
  end.

(** An object a [for] loop cannot draw from. *)
Definition not_iterable (v : value) : bool :=
  match v with
  | VNone | VBool _ | VInt _ | VFloat _ => true
  | _ => false
  end.

(** The success bodies of the two query views over an empty list. *)
Definition no_songs : Response :=
  jsonify [("success", VBool true); ("songs", VList [])].

Definition no_results : Response :=
  jsonify [("success", VBool true); ("results", VList [])].

(** The [Content-Type] the proxies answer with. *)
Definition proxied_content_type (up : upstream_response) : string :=
  match Http.get (up_headers up) "Content-Type" with
  | Some v => if Py.str_truthy v then v else "text/html; charset=utf-8"
  | None => "text/html; charset=utf-8"
  end.

(** Replies whose envelope is not of the expected shape. *)
Definition enveloped (inner : string) (v : value) : upstream_response :=
  mkUpstreamResponse 200 []
    (Some (VDict [("subsonic-response", VDict [(inner, v)])])) [].

Definition null_random_songs : upstream_response :=
  enveloped "randomSongs" VNone.

Definition null_search_result : upstream_response :=
  enveloped "searchResult3" VNone.

Definition song_list_with_text : upstream_response :=
  enveloped "randomSongs"
    (VDict [("song", VList [VDict [("id", VStr "so-1")]; VStr "so-2"])]).

Definition song_is_number : upstream_response :=
  enveloped "randomSongs" (VDict [("song", VInt 3)]).

(** A reply without any header. *)
Definition bare_reply : upstream_response :=
  mkUpstreamResponse 200 [] None ["x"].

(** The first byte of the text, if any, is ASCII. *)
Definition ascii_head (s : string) : Prop :=
  match s with
  | EmptyString => True
  | String b _ => (Py.code b <? 128) = true
  end.

(** The text of an environment variable set to the single byte 0xFF,
    which is not UTF-8: the interpreter keeps it as the lone surrogate
    U+DCFF. *)
Definition raw_password : string := String "255"%char EmptyString.

Definition raw_environ : environ :=
  fun k =>
    if String.eqb k "SUBSONIC_USER" then Some "alice"
    else if String.eqb k "SUBSONIC_PASSWORD" then Some raw_password
    else None.

(** A process started in that environment. *)
Definition raw_env (a : upstream_reply) : env :=
  mkEnv (load_config raw_environ) demo_entropy (fun _ => a).


(** ** Properties *)

Arguments md5_hex : simpl never.
Arguments hexdigest_of : simpl never.
Arguments Bytes.hex : simpl never.
Arguments Py.strip : simpl never.
Arguments Py.int_of_str : simpl never.
Arguments entropy_bytes : simpl never.

(** *** Known digests *)

Example md5_empty : md5_hex "" = Ok "d41d8cd98f00b204e9800998ecf8427e".
Proof. vm_compute. reflexivity. Qed.

Example md5_abc : md5_hex "abc" = Ok "900150983cd24fb0d6963f7d28e17f72".
Proof. vm_compute. reflexivity. Qed.

Example md5_two_blocks :
  md5_hex ("1234567890123456789012345678901234567890"
           ++ "1234567890123456789012345678901234567890")
  = Ok "57edf4a22be3c955ac49da2e2107b67a".
Proof. vm_compute. reflexivity. Qed.

(** A text with a two-byte and a three-byte character (U+00E9 and
    U+266B): the digest is that of its nine bytes. *)
Example md5_beyond_ascii :
  md5_hex ("caf" ++ String "195" (String "169" (" "
           ++ String "226" (String "153" (String "171" "")))))
  = Ok "caf6acdb26c3ef00bac42bd5488a1de5".
Proof. vm_compute. reflexivity. Qed.

(** A lead byte without its continuation byte is not UTF-8: the text
    holds a lone surrogate and cannot be encoded. *)
Example md5_cut_short :
  md5_hex ("caf" ++ String "195" "") = Raise UnicodeEncodeError.
Proof. vm_compute. reflexivity. Qed.

(** *** Hexadecimal text *)

Lemma code_hex_digit (n : Z) :
  0 <= n < 16 ->
  Py.code (Bytes.hex_digit n) = if n <? 10 then 48 + n else 87 + n.
Proof.
  intros Hn. unfold Py.code, Bytes.hex_digit.
  destruct (n <? 10) eqn:E;
    rewrite N_ascii_embedding by lia; lia.
Qed.

Lemma hex_digit_inj (a b : Z) :
  0 <= a < 16 -> 0 <= b < 16 ->
  Bytes.hex_digit a = Bytes.hex_digit b -> a = b.
Proof.
  intros Ha Hb H.
  apply (f_equal Py.code) in H.
  rewrite !code_hex_digit in H by assumption.
  destruct (a <? 10) eqn:Ea, (b <? 10) eqn:Eb; lia.
Qed.

Lemma nibbles (b : Z) :
  Bytes.is_byte b ->
  0 <= Z.shiftr b 4 < 16 /\ 0 <= Z.land b 15 < 16
  /\ b = 16 * Z.shiftr b 4 + Z.land b 15.
Proof.
  unfold Bytes.is_byte. intros Hb.
  rewrite Z.shiftr_div_pow2 by lia.
  change 15 with (Z.ones 4). rewrite Z.land_ones by lia.
  change (2 ^ 4) with 16.
  pose proof (Z.div_mod b 16). pose proof (Z.mod_pos_bound b 16).
  assert (0 <= b / 16 < 16)
    by (split; [apply Z.div_pos | apply Z.div_lt_upper_bound]; lia).
  lia.
Qed.

Lemma hex_cons (b : Z) (bs : list Z) :
  Bytes.hex (b :: bs)
  = String (Bytes.hex_digit (Z.shiftr b 4))
      (String (Bytes.hex_digit (Z.land b 15)) (Bytes.hex bs)).
Proof. reflexivity. Qed.

Lemma hex_inj (l1 l2 : list Z) :
  Forall Bytes.is_byte l1 -> Forall Bytes.is_byte l2 ->
  Bytes.hex l1 = Bytes.hex l2 -> l1 = l2.
Proof.
  intros H1. revert l2.
  induction H1 as [|a l1 Ha H1 IH]; intros l2 H2 H.
  - destruct l2; [reflexivity | rewrite hex_cons in H; discriminate H].
  - destruct H2 as [|b l2 Hb H2]; [rewrite hex_cons in H; discriminate H|].
    rewrite !hex_cons in H. injection H as Hhi Hlo Hrest.
    destruct (nibbles a Ha) as (Ha1 & Ha2 & Ea).
    destruct (nibbles b Hb) as (Hb1 & Hb2 & Eb).
    apply hex_digit_inj in Hhi; [|assumption..].
    apply hex_digit_inj in Hlo; [|assumption..].
    f_equal; [lia | apply IH; assumption].
Qed.

Lemma hex_length (l : list Z) :
  String.length (Bytes.hex l) = (2 * List.length l)%nat.
Proof.
  induction l as [|b l IH]; [reflexivity|].
  rewrite hex_cons. cbn [String.length List.length]. rewrite IH. lia.
Qed.

Lemma is_hex_char_digit (n : Z) :
  0 <= n < 16 -> Bytes.is_hex_char (Bytes.hex_digit n) = true.
Proof.
  intros Hn. unfold Bytes.is_hex_char.
  fold (Py.code (Bytes.hex_digit n)). rewrite code_hex_digit by assumption.
  destruct (n <? 10) eqn:E; lia.
Qed.

Lemma hex_chars (l : list Z) :
  Forall Bytes.is_byte l ->
  forallb Bytes.is_hex_char (list_ascii_of_string (Bytes.hex l)) = true.
Proof.
  induction 1 as [|b l Hb Hl IH]; [reflexivity|].
  rewrite hex_cons. destruct (nibbles b Hb) as (H1 & H2 & _).
  cbn [list_ascii_of_string forallb].
  rewrite !is_hex_char_digit by assumption. exact IH.
Qed.

Lemma entropy_bytes_are_bytes (e : env) (from n : nat) :
  Forall Bytes.is_byte (entropy_bytes e from n).
Proof.
  unfold entropy_bytes. apply Forall_map, Forall_forall. intros i _.
  unfold Bytes.is_byte. pose proof (Byte.to_N_bounded (entropy e i)). lia.
Qed.

Lemma entropy_bytes_length (e : env) (from n : nat) :
  List.length (entropy_bytes e from n) = n.
Proof. unfold entropy_bytes. now rewrite length_map, length_seq. Qed.

Lemma le_bytes_length (n : nat) (x : Z) :
  List.length (Bytes.le_bytes n x) = n.
Proof.
  revert x. induction n as [|n IH]; intros x; [reflexivity|].
  cbn [Bytes.le_bytes List.length]. now rewrite IH.
Qed.

Lemma le_bytes_are_bytes (n : nat) (x : Z) :
  Forall Bytes.is_byte (Bytes.le_bytes n x).
Proof.
  revert x. induction n as [|n IH]; intros x; [constructor|].
  cbn [Bytes.le_bytes]. constructor; [|apply IH].
  unfold Bytes.is_byte. change 255 with (Z.ones 8).
  rewrite Z.land_ones by lia. apply Z.mod_pos_bound. reflexivity.
Qed.

Lemma digest_shape (msg : list Z) :
  List.length (MD5.digest msg) = 16%nat
  /\ Forall Bytes.is_byte (MD5.digest msg).
Proof.
  unfold MD5.digest. cbv zeta.
  generalize (MD5.blocks (List.length (MD5.pad msg) / 64) MD5.init
                (MD5.pad msg)).
  intros st. split.
  - rewrite !length_app, !le_bytes_length. reflexivity.
  - repeat (apply Forall_app; split); apply le_bytes_are_bytes.
Qed.

(** *** Texts and their UTF-8 encoding *)

Lemma chars_eq (a : ascii) (r : string) :
  Py.chars (String a r)
  = let x := Py.code a in
    let one :=
      ((if x <? 128 then x else 56320 + x), String a EmptyString)
        :: Py.chars r in
    if (x <? 194) || (244 <? x) then one
    else
      match r with
      | EmptyString => one
      | String b r2 =>
          if x <? 224 then
            if Py.is_cont b then
              ((x - 192) * 64 + Py.cont b, String a (String b EmptyString))
                :: Py.chars r2
            else one
          else
            match r2 with
            | EmptyString => one
            | String c r3 =>
                if x <? 240 then
                  if Py.second3 x b && Py.is_cont c then
                    (((x - 224) * 64 + Py.cont b) * 64 + Py.cont c,
                      String a (String b (String c EmptyString)))
                      :: Py.chars r3
                  else one
                else
                  match r3 with
                  | EmptyString => one
                  | String d r4 =>
                      if Py.second4 x b && Py.is_cont c && Py.is_cont d then
                        ((((x - 240) * 64 + Py.cont b) * 64 + Py.cont c) * 64
                           + Py.cont d,
                          String a
                            (String b (String c (String d EmptyString))))
                          :: Py.chars r4
                      else one
                  end
            end
      end.
Proof. reflexivity. Qed.

Lemma not_cont (b : ascii) :
  (Py.code b <? 128) = true -> Py.is_cont b = false.
Proof. unfold Py.is_cont, Py.in_range. lia. Qed.

Lemma chars_single (a : ascii) (s : string) :
  ascii_head s ->
  Py.chars (String a s)
  = ((if Py.code a <? 128 then Py.code a else 56320 + Py.code a),
     String a EmptyString) :: Py.chars s.
Proof.
  intros Hs. rewrite chars_eq. cbv beta iota zeta.
  destruct ((Py.code a <? 194) || (244 <? Py.code a)); [reflexivity|].
  destruct s as [|b s2]; [reflexivity|]. cbn in Hs.
  pose proof (not_cont b Hs) as Hb.
  assert (H3 : Py.second3 (Py.code a) b = false)
    by (unfold Py.second3, Py.in_range; rewrite Hb;
        destruct (Py.code a =? 224), (Py.code a =? 237); lia).
  assert (H4 : Py.second4 (Py.code a) b = false)
    by (unfold Py.second4, Py.in_range; rewrite Hb;
        destruct (Py.code a =? 240), (Py.code a =? 244); lia).
  rewrite Hb, H3, H4. cbn [andb].
  destruct (Py.code a <? 224); [reflexivity|].
  destruct s2 as [|c s3]; [reflexivity|].
  destruct (Py.code a <? 240); [reflexivity|].
  destruct s3 as [|d s4]; reflexivity.
Qed.

Lemma chars_app_bounded (n : nat) (p : string) (c0 : ascii) (s0 : string) :
  (String.length p <= n)%nat -> (Py.code c0 <? 128) = true ->
  Py.chars (p ++ String c0 s0)
  = Py.chars p ++ Py.chars (String c0 s0).
Proof.
  intros Hn Hs. revert p Hn. set (s := String c0 s0).
  assert (Hh : ascii_head s) by exact Hs.
  induction n as [|n IH]; intros p Hn.
  - destruct p; [reflexivity | cbn in Hn; lia].
  - destruct p as [|a r]; [reflexivity|]. cbn [String.length] in Hn.
    assert (IHr : Py.chars (r ++ s) = Py.chars r ++ Py.chars s)
      by (apply IH; lia).
    change (String a r ++ s)%string with (String a (r ++ s)%string).
    destruct r as [|b r2].
    { cbn [append]. rewrite (chars_single a s Hh), (chars_single a "" I).
      reflexivity. }
    cbn [String.length] in Hn.
    assert (IHr2 : Py.chars (r2 ++ s) = Py.chars r2 ++ Py.chars s)
      by (apply IH; lia).
    change (String b r2 ++ s)%string with (String b (r2 ++ s)%string) in *.
    rewrite (chars_eq a (String b (r2 ++ s))), (chars_eq a (String b r2)).
    cbv beta iota zeta.
    destruct ((Py.code a <? 194) || (244 <? Py.code a));
      [rewrite IHr; reflexivity|].
    destruct (Py.code a <? 224).
    { destruct (Py.is_cont b); [rewrite IHr2 | rewrite IHr]; reflexivity. }
    destruct r2 as [|c r3].
    { cbn [append] in *. unfold s at 1. cbv beta iota.
      rewrite (not_cont c0 Hs), andb_false_r. cbn [andb].
      destruct (Py.code a <? 240); [rewrite IHr; reflexivity|].
      destruct s0 as [|d s3]; rewrite ?andb_false_r; cbn [andb];
        rewrite IHr; reflexivity. }
    cbn [String.length] in Hn.
    assert (IHr3 : Py.chars (r3 ++ s) = Py.chars r3 ++ Py.chars s)
      by (apply IH; lia).
    change (String c r3 ++ s)%string with (String c (r3 ++ s)%string) in *.
    cbv beta iota.
    destruct (Py.code a <? 240).
    { destruct (Py.second3 (Py.code a) b && Py.is_cont c);
        [rewrite IHr3 | rewrite IHr]; reflexivity. }
    destruct r3 as [|d r4].
    { cbn [append] in *. unfold s at 1. cbv beta iota.
      rewrite (not_cont c0 Hs), andb_false_r.
      rewrite IHr; reflexivity. }
    cbn [String.length] in Hn.
    assert (IHr4 : Py.chars (r4 ++ s) = Py.chars r4 ++ Py.chars s)
      by (apply IH; lia).
    change (String d r4 ++ s)%string with (String d (r4 ++ s)%string) in *.
    cbv beta iota.
    destruct (Py.second4 (Py.code a) b && Py.is_cont c && Py.is_cont d);
      [rewrite IHr4 | rewrite IHr]; reflexivity.
Qed.

Lemma append_empty_r (p : string) : (p ++ "")%string = p.
Proof. induction p as [|a p IH]; [reflexivity|]. cbn. now rewrite IH. Qed.

Lemma chars_app (p s : string) :
  ascii_head s -> Py.chars (p ++ s) = Py.chars p ++ Py.chars s.
Proof.
  destruct s as [|c0 s0]; intros Hs.
  - rewrite append_empty_r. cbn [Py.chars]. now rewrite app_nil_r.
  - apply (chars_app_bounded (String.length p)); [apply le_n | exact Hs].
Qed.

Lemma ascii_only_head (s : string) :
  Py.ascii_only s = true -> ascii_head s.
Proof.
  destruct s as [|b s]; [exact (fun _ => I)|].
  unfold Py.ascii_only. cbn [list_ascii_of_string forallb ascii_head].
  intros H. apply andb_true_iff in H. exact (proj1 H).
Qed.

Lemma ascii_only_encodable (s : string) :
  Py.ascii_only s = true -> Py.encodable s = true.
Proof.
  unfold Py.ascii_only, Py.encodable.
  induction s as [|a s IH]; [reflexivity|].
  cbn [list_ascii_of_string forallb]. intros H.
  apply andb_true_iff in H as [Ha Hs].
  rewrite (chars_single a s (ascii_only_head s Hs)). rewrite Ha.
  cbn [forallb fst]. rewrite (IH Hs), andb_true_r.
  unfold Py.in_range. lia.
Qed.

Lemma encodable_app (p s : string) :
  Py.ascii_only s = true ->
  Py.encodable (p ++ s) = Py.encodable p.
Proof.
  intros Hs. unfold Py.encodable.
  rewrite (chars_app p s (ascii_only_head s Hs)), forallb_app.
  fold (Py.encodable p). fold (Py.encodable s).
  rewrite (ascii_only_encodable s Hs). apply andb_true_r.
Qed.

Lemma hex_ascii_only (l : list Z) :
  Forall Bytes.is_byte l -> Py.ascii_only (Bytes.hex l) = true.
Proof.
  unfold Py.ascii_only.
  induction 1 as [|b l Hb Hl IH]; [reflexivity|].
  rewrite hex_cons. destruct (nibbles b Hb) as (H1 & H2 & _).
  cbn [list_ascii_of_string forallb].
  rewrite !code_hex_digit by assumption. rewrite IH.
  destruct (Z.shiftr b 4 <? 10), (Z.land b 15 <? 10); lia.
Qed.

Lemma md5_hex_ok (s : string) :
  Py.encodable s = true -> md5_hex s = Ok (hexdigest_of s).
Proof. intros H. unfold md5_hex, encode_utf8. rewrite H. reflexivity. Qed.

Lemma md5_hex_raises (s : string) :
  Py.encodable s = false -> md5_hex s = Raise UnicodeEncodeError.
Proof. intros H. unfold md5_hex, encode_utf8. rewrite H. reflexivity. Qed.

(** *** The auth token builder *)

Lemma has_credentials_false (c : config) :
  has_credentials c = false ->
  negb (Py.str_truthy (SUBSONIC_USER c))
  || negb (Py.str_truthy (SUBSONIC_PASSWORD c)) = true.
Proof.
  unfold has_credentials.
  destruct (Py.str_truthy (SUBSONIC_USER c)),
    (Py.str_truthy (SUBSONIC_PASSWORD c)); intros H;
    (discriminate H || reflexivity).
Qed.

Lemma has_credentials_true (c : config) :
  has_credentials c = true ->
  negb (Py.str_truthy (SUBSONIC_USER c))
  || negb (Py.str_truthy (SUBSONIC_PASSWORD c)) = false.
Proof.
  unfold has_credentials.
  destruct (Py.str_truthy (SUBSONIC_USER c)),
    (Py.str_truthy (SUBSONIC_PASSWORD c)); intros H;
    (discriminate H || reflexivity).
Qed.

Lemma subsonic_auth_abort (e : env) (w : world) :
  has_credentials (cfg e) = false ->
  subsonic_auth e w = (Raise missing_credentials, w).
Proof.
  intros H. unfold subsonic_auth. cbn.
  rewrite (has_credentials_false _ H). reflexivity.
Qed.

Lemma salted_encodable (e : env) (n : nat) :
  Py.encodable (SUBSONIC_PASSWORD (cfg e) ++ Bytes.hex (entropy_bytes e n 8))
  = Py.encodable (SUBSONIC_PASSWORD (cfg e)).
Proof. apply encodable_app, hex_ascii_only, entropy_bytes_are_bytes. Qed.

Lemma subsonic_auth_run (e : env) (w : world) :
  has_credentials (cfg e) = true ->
  Py.encodable (SUBSONIC_PASSWORD (cfg e)) = true ->
  subsonic_auth e w
  = (Ok (auth_at e (cursor w)), mkWorld (cursor w + 8) (sent w)).
Proof.
  intros H He. unfold subsonic_auth. cbn [bind Monad_M ask].
  rewrite (has_credentials_true _ H). unfold token_hex, lift.
  cbn [cursor sent].
  rewrite md5_hex_ok by (rewrite salted_encodable; exact He).
  reflexivity.
Qed.

Lemma subsonic_auth_unencodable (e : env) (w : world) :
  has_credentials (cfg e) = true ->
  Py.encodable (SUBSONIC_PASSWORD (cfg e)) = false ->
  subsonic_auth e w
  = (Raise UnicodeEncodeError, mkWorld (cursor w + 8) (sent w)).
Proof.
  intros H He. unfold subsonic_auth. cbn [bind Monad_M ask].
  rewrite (has_credentials_true _ H). unfold token_hex, lift.
  cbn [cursor sent].
  rewrite md5_hex_raises by (rewrite salted_encodable; exact He).
  reflexivity.
Qed.


(** Claim C4, as amended.  With both credentials configured and a
    password that has a UTF-8 encoding, a call to [subsonic_auth]
    returns exactly the mapping with the keys [u], [t], [s], [v], [c],
    [f], in which [u] is the configured user, [s] is the salt, [t] is
    what [md5_hex] returns on the password followed by the salt, [v] and
    [c] are the configured protocol version and client name and [f] is
    ["json"].  The salt is the hexadecimal text of eight bytes drawn
    from the entropy source at the cursor, which the call moves past
    them: sixteen hexadecimal characters that determine the eight
    bytes. *)
Theorem subsonic_auth_mapping (e : env) (w : world) :
  has_credentials (cfg e) = true ->
  Py.encodable (SUBSONIC_PASSWORD (cfg e)) = true ->
  let salt := Bytes.hex (entropy_bytes e (cursor w) 8) in
  exists token,
    md5_hex (SUBSONIC_PASSWORD (cfg e) ++ salt) = Ok token
    /\ subsonic_auth e w
       = (Ok [("u", VStr (SUBSONIC_USER (cfg e)));
              ("t", VStr token);
              ("s", VStr salt);
              ("v", VStr (SUBSONIC_VERSION (cfg e)));
              ("c", VStr (SUBSONIC_CLIENT (cfg e)));
              ("f", VStr SUBSONIC_FORMAT)],
          mkWorld (cursor w + 8) (sent w))
    /\ String.length salt = 16%nat
    /\ forallb Bytes.is_hex_char (list_ascii_of_string salt) = true
    /\ (forall bs : list Z,
          Forall Bytes.is_byte bs -> Bytes.hex bs = salt ->
          bs = entropy_bytes e (cursor w) 8).
Proof.
  intros H He salt.
  exists (hexdigest_of (SUBSONIC_PASSWORD (cfg e) ++ salt)).
  split; [|split; [|split; [|split]]].
  - apply md5_hex_ok. unfold salt. rewrite salted_encodable. exact He.
  - exact (subsonic_auth_run e w H He).
  - unfold salt. rewrite hex_length, entropy_bytes_length. reflexivity.
  - apply hex_chars, entropy_bytes_are_bytes.
  - intros bs Hbs Hhex. apply hex_inj;
      [assumption | apply entropy_bytes_are_bytes | exact Hhex].
Qed.

Lemma subsonic_auth_mapping_witness :
  has_credentials (cfg (demo_env Unreachable)) = true
  /\ Py.encodable (SUBSONIC_PASSWORD (cfg (demo_env Unreachable))) = true
  /\ subsonic_auth (demo_env Unreachable) start
     = (Ok [("u", VStr "alice");
            ("t", VStr "551657623e34f4be7a5c7075c443e59c");
            ("s", VStr "031425364758697a");
            ("v", VStr "1.16.1");
            ("c", VStr "homarr-webplayer");
            ("f", VStr "json")],
        mkWorld 8 []).
Proof.
  split; [reflexivity|]. split; [reflexivity|].
  destruct (subsonic_auth_mapping (demo_env Unreachable) start)
    as (token & Hm & H & _); [reflexivity | reflexivity |].
  vm_compute in Hm. injection Hm as <-.
  rewrite H. vm_compute. reflexivity.
Defined.

(** Claim C4 as stated fails on a password that has no UTF-8 encoding:
    with the password variable set to the single byte 0xFF, both
    credentials are there, and [subsonic_auth] draws its salt and then
    raises the encoding error of [md5_hex] instead of returning a
    mapping. *)
Lemma subsonic_auth_unencodable_password :
  has_credentials (cfg (raw_env Unreachable)) = true
  /\ md5_hex (SUBSONIC_PASSWORD (cfg (raw_env Unreachable))
              ++ "031425364758697a") = Raise UnicodeEncodeError
  /\ subsonic_auth (raw_env Unreachable) start
     = (Raise UnicodeEncodeError, mkWorld 8 [])
  /\ ~ (forall e w,
          has_credentials (cfg e) = true ->
          exists d w', subsonic_auth e w = (Ok d, w')).
Proof.
  split; [reflexivity|]. split; [vm_compute; reflexivity|].
  split; [vm_compute; reflexivity|].
  intros H.
  destruct (H (raw_env Unreachable) start eq_refl) as (d & w' & Hd).
  vm_compute in Hd. discriminate Hd.
Qed.




(** *** How the views run *)

Ltac run_auth H :=
  cbn [bind Monad_M ask];
  rewrite (subsonic_auth_abort _ _ H);
  try reflexivity.

Ltac run_auth_with H He :=
  cbn [bind Monad_M ask];
  first [ rewrite (subsonic_auth_run _ _ H He)
        | rewrite (subsonic_auth_unencodable _ _ H He) ];
  try reflexivity.

Lemma requests_get_bind (u : string) (p : dict) (h : Http.headers)
  (s : bool) (f : upstream_response -> result Response)
  (e : env) (w : world) :
  (r <- requests_get u p h s ;; lift (f r)) e w
  = exchange e w (cursor w) (mkUpstreamRequest u p h s) f.
Proof.
  unfold exchange. cbn [bind Monad_M]. unfold requests_get, lift.
  destruct (upstream e _); reflexivity.
Qed.

Lemma api_cover_run (id : string) (e : env) (w : world) :
  has_credentials (cfg e) = true ->
  Py.encodable (SUBSONIC_PASSWORD (cfg e)) = true ->
  api_cover id e w
  = exchange e w (cursor w + 8)
      (mkUpstreamRequest (NAVIDROME_URL (cfg e) ++ "/rest/getCoverArt")
         (dict_or (auth_at e (cursor w)) [("id", VStr id)]) [] true)
      (fun up => Ok (cover_reply up)).
Proof.
  intros H He. unfold api_cover. run_auth_with H He.
  exact (requests_get_bind _ _ _ _ (fun up => Ok (cover_reply up)) e _).
Qed.

Lemma api_stream_run (rq : request) (id : string) (e : env) (w : world) :
  has_credentials (cfg e) = true ->
  Py.encodable (SUBSONIC_PASSWORD (cfg e)) = true ->
  api_stream rq id e w
  = exchange e w (cursor w + 8)
      (mkUpstreamRequest (NAVIDROME_URL (cfg e) ++ "/rest/download")
         (dict_or (auth_at e (cursor w)) [("id", VStr id)])
         (forwarded_headers rq) true)
      (fun up => Ok (stream_reply up)).
Proof.
  intros H He. unfold api_stream. run_auth_with H He.
  exact (requests_get_bind _ _ _ _ (fun up => Ok (stream_reply up)) e _).
Qed.

Lemma size_of_request (rq : request) :
  match int_arg (args_get (args rq) "size") 30 with
  | Ok n => n
  | Raise _ => 30
  end = requested_size rq.
Proof.
  unfold requested_size, int_arg.
  destruct (args_get (args rq) "size") as [s|]; [|reflexivity].
  destruct (Py.int_of_str s); reflexivity.
Qed.

Lemma api_random_list_run (rq : request) (e : env) (w : world) :
  has_credentials (cfg e) = true ->
  Py.encodable (SUBSONIC_PASSWORD (cfg e)) = true ->
  api_random_list rq e w
  = exchange e w (cursor w + 8)
      (mkUpstreamRequest (NAVIDROME_URL (cfg e) ++ "/rest/getRandomSongs")
         (dict_or (auth_at e (cursor w)) [("size", VInt (requested_size rq))])
         [] false)
      random_list_reply.
Proof.
  intros H He. unfold api_random_list. rewrite size_of_request.
  run_auth_with H He.
  exact (requests_get_bind _ _ _ _ random_list_reply e _).
Qed.

Lemma api_search_run (rq : request) (n : Z) (e : env) (w : world) :
  has_credentials (cfg e) = true ->
  Py.encodable (SUBSONIC_PASSWORD (cfg e)) = true ->
  Py.str_truthy (search_query rq) = true ->
  int_arg (args_get (args rq) "songCount") 25 = Ok n ->
  api_search rq e w
  = exchange e w (cursor w + 8)
      (mkUpstreamRequest (NAVIDROME_URL (cfg e) ++ "/rest/search3")
         (dict_or (auth_at e (cursor w))
            [("query", VStr (search_query rq)); ("songCount", VInt n);
             ("albumCount", VInt 0); ("artistCount", VInt 0)])
         [] false)
      search_reply.
Proof.
  intros H He Hq Hn. unfold api_search. rewrite Hq. cbn [negb].
  run_auth_with H He.
  rewrite Hn. unfold lift at 1.
  exact (requests_get_bind _ _ _ _ search_reply e _).
Qed.

Lemma api_search_bad_songCount (rq : request) (s : string) (e : env)
  (w : world) :
  has_credentials (cfg e) = true ->
  Py.encodable (SUBSONIC_PASSWORD (cfg e)) = true ->
  Py.str_truthy (search_query rq) = true ->
  args_get (args rq) "songCount" = Some s ->
  Py.int_of_str s = None ->
  api_search rq e w = (Raise ValueError, mkWorld (cursor w + 8) (sent w)).
Proof.
  intros H He Hq Hs Hn. unfold api_search. rewrite Hq. cbn [negb].
  run_auth_with H He.
  rewrite Hs. unfold int_arg. rewrite Hn. reflexivity.
Qed.

(** With a password that has no UTF-8 encoding, every view that calls
    [subsonic_auth] stops there, the salt drawn and nothing sent. *)
Lemma views_unencodable (e : env) (w : world) :
  has_credentials (cfg e) = true ->
  Py.encodable (SUBSONIC_PASSWORD (cfg e)) = false ->
  (forall id,
     api_cover id e w
     = (Raise UnicodeEncodeError, mkWorld (cursor w + 8) (sent w)))
  /\ (forall rq id,
        api_stream rq id e w
        = (Raise UnicodeEncodeError, mkWorld (cursor w + 8) (sent w)))
  /\ (forall rq,
        api_random_list rq e w
        = (Raise UnicodeEncodeError, mkWorld (cursor w + 8) (sent w)))
  /\ (forall rq,
        Py.str_truthy (search_query rq) = true ->
        api_search rq e w
        = (Raise UnicodeEncodeError, mkWorld (cursor w + 8) (sent w))).
Proof.
  intros H He. repeat apply conj.
  - intros id. unfold api_cover. run_auth_with H He.
  - intros rq id. unfold api_stream. run_auth_with H He.
  - intros rq. unfold api_random_list. run_auth_with H He.
  - intros rq Hq. unfold api_search. rewrite Hq. cbn [negb].
    run_auth_with H He.
Qed.

Lemma exchange_sent (e : env) (w : world) (c : nat) (q : upstream_request)
  (f : upstream_response -> result Response) :
  sent (snd (exchange e w c q f)) = sent w ++ [q].
Proof. unfold exchange. destruct (upstream e q); reflexivity. Qed.

Lemma exchange_answered (e : env) (w : world) (c : nat)
  (q : upstream_request) (f : upstream_response -> result Response)
  (m : M Response) (a : upstream_reply) :
  m e w = exchange e w c q f ->
  answered e m w a ->
  upstream e q = a.
Proof.
  intros Hrun (q' & Hs & Ha). rewrite Hrun, exchange_sent in Hs.
  apply app_inv_head in Hs. injection Hs as ->. exact Ha.
Qed.

Lemma exchange_replies (e : env) (w : world) (c : nat)
  (q : upstream_request) (f : upstream_response -> result Response)
  (r : upstream_response) :
  upstream e q = Replies r ->
  exchange e w c q f = (f r, mkWorld c (sent w ++ [q])).
Proof. intros H. unfold exchange. rewrite H. reflexivity. Qed.

Lemma exchange_unreachable (e : env) (w : world) (c : nat)
  (q : upstream_request) (f : upstream_response -> result Response) :
  upstream e q = Unreachable ->
  exchange e w c q f = (Raise ConnectionError, mkWorld c (sent w ++ [q])).
Proof. intros H. unfold exchange. rewrite H. reflexivity. Qed.

Lemma nothing_sent_not_answered (e : env) (w : world) (m : M Response)
  (o : result Response) (c : nat) (a : upstream_reply) :
  m e w = (o, mkWorld c (sent w)) -> ~ answered e m w a.
Proof.
  intros Hrun (q & Hs & _). rewrite Hrun in Hs. cbn [snd sent] in Hs.
  apply (f_equal (@List.length _)) in Hs. rewrite length_app in Hs.
  cbn in Hs. lia.
Qed.

Lemma not_blank (s : string) : s <> "" -> Py.str_truthy s = true.
Proof. destruct s; [intros H; contradiction H|]; reflexivity. Qed.

(** A view that was answered got past [subsonic_auth]: the password has
    a UTF-8 encoding. *)
Lemma answered_encodable (e : env) (w : world) (a : upstream_reply) :
  has_credentials (cfg e) = true ->
  (forall id, answered e (api_cover id) w a ->
              Py.encodable (SUBSONIC_PASSWORD (cfg e)) = true)
  /\ (forall rq id, answered e (api_stream rq id) w a ->
                    Py.encodable (SUBSONIC_PASSWORD (cfg e)) = true)
  /\ (forall rq, answered e (api_random_list rq) w a ->
                 Py.encodable (SUBSONIC_PASSWORD (cfg e)) = true)
  /\ (forall rq, search_query rq <> "" ->
                 answered e (api_search rq) w a ->
                 Py.encodable (SUBSONIC_PASSWORD (cfg e)) = true).
Proof.
  intros H.
  destruct (Py.encodable (SUBSONIC_PASSWORD (cfg e))) eqn:He;
    [repeat apply conj; reflexivity|].
  destruct (views_unencodable e w H He) as (Hc & Hs & Hr & Hq).
  repeat apply conj.
  - intros id Ha. destruct (nothing_sent_not_answered _ _ _ _ _ _ (Hc id) Ha).
  - intros rq id Ha.
    destruct (nothing_sent_not_answered _ _ _ _ _ _ (Hs rq id) Ha).
  - intros rq Ha. destruct (nothing_sent_not_answered _ _ _ _ _ _ (Hr rq) Ha).
  - intros rq Hne Ha.
    destruct (nothing_sent_not_answered _ _ _ _ _ _
                (Hq rq (not_blank _ Hne)) Ha).
Qed.

Lemma answered_outcome (e : env) (w : world) (c : nat) (q : upstream_request)
  (f : upstream_response -> result Response) (m : M Response)
  (a : upstream_reply) :
  m e w = exchange e w c q f ->
  answered e m w a ->
  fst (m e w)
  = match a with
    | Replies r => f r
    | Unreachable => Raise ConnectionError
    end.
Proof.
  intros Hrun Ha.
  pose proof (exchange_answered _ _ _ _ _ _ _ Hrun Ha) as Hup.
  rewrite Hrun. unfold exchange. rewrite Hup. destruct a; reflexivity.
Qed.

Lemma api_cover_outcome (id : string) (e : env) (w : world)
  (a : upstream_reply) :
  has_credentials (cfg e) = true ->
  answered e (api_cover id) w a ->
  fst (api_cover id e w)
  = match a with
    | Replies r => Ok (cover_reply r)
    | Unreachable => Raise ConnectionError
    end.
Proof.
  intros H Ha.
  pose proof (proj1 (answered_encodable e w a H) id Ha) as He.
  exact (answered_outcome _ _ _ _ _ _ _ (api_cover_run id e w H He) Ha).
Qed.

Lemma api_stream_outcome (rq : request) (id : string) (e : env) (w : world)
  (a : upstream_reply) :
  has_credentials (cfg e) = true ->
  answered e (api_stream rq id) w a ->
  fst (api_stream rq id e w)
  = match a with
    | Replies r => Ok (stream_reply r)
    | Unreachable => Raise ConnectionError
    end.
Proof.
  intros H Ha.
  pose proof (proj1 (proj2 (answered_encodable e w a H)) rq id Ha) as He.
  exact (answered_outcome _ _ _ _ _ _ _ (api_stream_run rq id e w H He) Ha).
Qed.

Lemma api_random_list_outcome (rq : request) (e : env) (w : world)
  (a : upstream_reply) :
  has_credentials (cfg e) = true ->
  answered e (api_random_list rq) w a ->
  fst (api_random_list rq e w)
  = match a with
    | Replies r => random_list_reply r
    | Unreachable => Raise ConnectionError
    end.
Proof.
  intros H Ha.
  pose proof (proj1 (proj2 (proj2 (answered_encodable e w a H))) rq Ha)
    as He.
  exact (answered_outcome _ _ _ _ _ _ _ (api_random_list_run rq e w H He) Ha).
Qed.

Lemma api_search_outcome (rq : request) (e : env) (w : world)
  (a : upstream_reply) :
  has_credentials (cfg e) = true ->
  search_query rq <> "" ->
  (exists n, int_arg (args_get (args rq) "songCount") 25 = Ok n) ->
  answered e (api_search rq) w a ->
  fst (api_search rq e w)
  = match a with
    | Replies r => search_reply r
    | Unreachable => Raise ConnectionError
    end.
Proof.
  intros H Hq (n & Hn) Ha.
  pose proof (proj2 (proj2 (proj2 (answered_encodable e w a H))) rq Hq Ha)
    as He.
  exact (answered_outcome _ _ _ _ _ _ _
           (api_search_run rq n e w H He (not_blank _ Hq) Hn) Ha).
Qed.

(** *** Missing credentials, missing query, numeric arguments *)

Lemma credentials_missing (c : config) :
  SUBSONIC_USER c = "" \/ SUBSONIC_PASSWORD c = "" ->
  has_credentials c = false.
Proof.
  unfold has_credentials. intros [H|H]; rewrite H; cbn;
    [reflexivity | apply andb_false_r].
Qed.

Lemma strip_empty : Py.strip "" = "".
Proof. reflexivity. Qed.

(** Claim C6, as amended.  When the configured user or password is the
    empty string, [api_cover], [api_stream] and [api_random_list], and
    [api_search] on a query that is not blank, raise the HTTP exception
    of status 500 whose description names the two environment variables;
    the process state is left as it was, so no upstream request is sent
    and no entropy is drawn. *)
Theorem missing_credentials_abort (e : env) (w : world) :
  SUBSONIC_USER (cfg e) = "" \/ SUBSONIC_PASSWORD (cfg e) = "" ->
  (forall id, api_cover id e w = (Raise missing_credentials, w))
  /\ (forall rq id, api_stream rq id e w = (Raise missing_credentials, w))
  /\ (forall rq, api_random_list rq e w = (Raise missing_credentials, w))
  /\ (forall rq, search_query rq <> "" ->
                 api_search rq e w = (Raise missing_credentials, w))
  /\ http_status (Raise missing_credentials) = 500.
Proof.
  intros Hc. apply credentials_missing in Hc.
  split; [|split; [|split; [|split]]].
  - intros id. unfold api_cover. run_auth Hc.
  - intros rq id. unfold api_stream. run_auth Hc.
  - intros rq. unfold api_random_list. run_auth Hc.
  - intros rq Hq. unfold api_search.
    destruct (search_query rq) eqn:E; [contradiction Hq; reflexivity|].
    cbn [Py.str_truthy negb]. run_auth Hc.
  - reflexivity.
Qed.

Lemma missing_credentials_abort_witness :
  (SUBSONIC_USER (cfg (bare_env Unreachable)) = ""
   \/ SUBSONIC_PASSWORD (cfg (bare_env Unreachable)) = "")
  /\ api_cover "al-1" (bare_env Unreachable) start
     = (Raise missing_credentials, start)
  /\ api_search (mkRequest [("query", "abba")] []) (bare_env Unreachable) start
     = (Raise missing_credentials, start).
Proof.
  assert (H : SUBSONIC_USER (cfg (bare_env Unreachable)) = ""
              \/ SUBSONIC_PASSWORD (cfg (bare_env Unreachable)) = "")
    by (left; reflexivity).
  destruct (missing_credentials_abort (bare_env Unreachable) start H)
    as (Hcover & _ & _ & Hsearch & _).
  split; [exact H|]. split; [apply Hcover|].
  apply Hsearch. vm_compute. discriminate.
Defined.

(** Claim C6 as stated fails on [api_search]: without credentials, a
    request with no query is answered 400 and not 500, the check of the
    query coming before the call to [subsonic_auth]. *)
Lemma missing_credentials_search_400 :
  has_credentials (cfg (bare_env Unreachable)) = false
  /\ api_search (mkRequest [] []) (bare_env Unreachable) start
     = (Ok no_query, start)
  /\ http_status (fst (api_search (mkRequest [] []) (bare_env Unreachable)
                         start)) = 400
  /\ ~ (forall rq e w,
          has_credentials (cfg e) = false ->
          http_status (fst (api_search rq e w)) = 500).
Proof.
  split; [reflexivity|]. split; [reflexivity|]. split; [reflexivity|].
  intros H.
  specialize (H (mkRequest [] []) (bare_env Unreachable) start eq_refl).
  vm_compute in H. discriminate H.
Qed.

(** Claim C7.  When the [query] argument of a request to [api_search] is
    missing or strips to the empty string, the view returns status 400
    with the body [{success: false, error: "No query"}] and leaves the
    process state as it was: no upstream request is sent. *)
Theorem search_requires_query (rq : request) (e : env) (w : world) :
  args_get (args rq) "query" = None
  \/ (exists s, args_get (args rq) "query" = Some s /\ Py.strip s = "") ->
  api_search rq e w = (Ok no_query, w)
  /\ status no_query = 400
  /\ body no_query
     = JsonBody (VDict [("success", VBool false); ("error", VStr "No query")])
  /\ sent (snd (api_search rq e w)) = sent w.
Proof.
  intros H.
  assert (Hq : search_query rq = "").
  { unfold search_query. destruct H as [H | (s & H & Hs)]; rewrite H.
    - exact strip_empty.
    - destruct s; [exact strip_empty | exact Hs]. }
  assert (Hrun : api_search rq e w = (Ok no_query, w))
    by (unfold api_search; rewrite Hq; reflexivity).
  rewrite Hrun. repeat split.
Qed.

Lemma search_requires_query_witness :
  (args_get (args (mkRequest [("query", "    ")] [])) "query" = None
   \/ (exists s, args_get (args (mkRequest [("query", "    ")] [])) "query"
                 = Some s /\ Py.strip s = ""))
  /\ api_search (mkRequest [("query", "    ")] [])
       (demo_env Unreachable) start
     = (Ok no_query, start).
Proof.
  assert (H : args_get (args (mkRequest [("query", "    ")] [])) "query" = None
              \/ (exists s,
                    args_get (args (mkRequest [("query", "    ")] [])) "query"
                    = Some s /\ Py.strip s = ""))
    by (right; exists "    "; split; reflexivity).
  split; [exact H|].
  apply (search_requires_query _ (demo_env Unreachable) start H).
Defined.

(** Claim C9.  With credentials configured and a password that has a
    UTF-8 encoding, [api_random_list] sends one
    upstream request, to [getRandomSongs], whose [size] parameter is the
    integer read from the [size] argument when [int] accepts it, and 30
    when the argument is absent or [int] rejects it.  A [size] that
    [int] rejects does not make the view fail: the view then runs
    exactly as on the request without arguments. *)
Theorem random_list_size (rq : request) (e : env) (w : world) :
  has_credentials (cfg e) = true ->
  Py.encodable (SUBSONIC_PASSWORD (cfg e)) = true ->
  (exists q,
     sends e (api_random_list rq) w q
     /\ url q = (NAVIDROME_URL (cfg e) ++ "/rest/getRandomSongs")%string
     /\ dict_get (params q) "size"
        = Some (VInt match args_get (args rq) "size" with
                     | None => 30
                     | Some s =>
                         match Py.int_of_str s with
                         | Some n => n
                         | None => 30
                         end
                     end))
  /\ (forall s,
        args_get (args rq) "size" = Some s -> Py.int_of_str s = None ->
        api_random_list rq e w
        = api_random_list (mkRequest [] (headers rq)) e w).
Proof.
  intros H He. split.
  - eexists. unfold sends. rewrite (api_random_list_run rq e w H He).
    split; [apply exchange_sent|]. split; reflexivity.
  - intros s Hs Hn.
    rewrite !(api_random_list_run _ e w H He).
    unfold requested_size. cbn [args args_get]. rewrite Hs, Hn. reflexivity.
Qed.

Lemma random_list_size_witness :
  has_credentials (cfg (demo_env Unreachable)) = true
  /\ Py.encodable (SUBSONIC_PASSWORD (cfg (demo_env Unreachable))) = true
  /\ (exists q,
        sends (demo_env Unreachable)
          (api_random_list (mkRequest [("size", "12")] [])) start q
        /\ dict_get (params q) "size" = Some (VInt 12))
  /\ api_random_list (mkRequest [("size", "a dozen")] [])
       (demo_env Unreachable) start
     = api_random_list (mkRequest [] []) (demo_env Unreachable) start.
Proof.
  split; [reflexivity|]. split; [reflexivity|]. split.
  - destruct (random_list_size (mkRequest [("size", "12")] [])
                (demo_env Unreachable) start eq_refl eq_refl)
      as ((q & Hq & _ & Hsize) & _).
    exists q. split; [exact Hq | exact Hsize].
  - destruct (random_list_size (mkRequest [("size", "a dozen")] [])
                (demo_env Unreachable) start eq_refl eq_refl) as (_ & Hbad).
    apply (Hbad "a dozen"); reflexivity.
Defined.

(** Claim C10.  There is a request to [api_search], with a query that is
    not blank and a [songCount] argument that [int] rejects, on which
    the view raises the [ValueError] of the conversion, answered by the
    framework with status 500, before any upstream request is sent; the
    default 25 is not used.  [api_random_list], given the same text as
    [size], falls back to 30 and sends its request. *)
Theorem search_songCount_unguarded :
  exists (rq : request) (s : string) (e : env),
    search_query rq <> ""
    /\ args_get (args rq) "songCount" = Some s
    /\ Py.int_of_str s = None
    /\ has_credentials (cfg e) = true
    /\ fst (api_search rq e start) = Raise ValueError
    /\ http_status (fst (api_search rq e start)) = 500
    /\ sent (snd (api_search rq e start)) = []
    /\ exists q,
         sends e (api_random_list (mkRequest [("size", s)] [])) start q
         /\ dict_get (params q) "size" = Some (VInt 30).
Proof.
  exists (mkRequest [("query", "abba"); ("songCount", "many")] []),
    "many", (demo_env Unreachable).
  assert (Hrun : api_search
                   (mkRequest [("query", "abba"); ("songCount", "many")] [])
                   (demo_env Unreachable) start
                 = (Raise ValueError, mkWorld (cursor start + 8) (sent start)))
    by (apply (api_search_bad_songCount _ "many"); reflexivity).
  rewrite Hrun.
  split; [vm_compute; discriminate|].
  repeat (split; [reflexivity|]).
  eexists. unfold sends.
  rewrite (api_random_list_run (mkRequest [("size", "many")] [])
             (demo_env Unreachable) start eq_refl eq_refl).
  split; [apply exchange_sent | reflexivity].
Qed.

(** *** Header maps *)

Lemma ieq_true (a b : string) :
  Http.ieq a b = true <-> Http.lower a = Http.lower b.
Proof. unfold Http.ieq. apply String.eqb_eq. Qed.

Lemma ieq_refl (a : string) : Http.ieq a a = true.
Proof. apply ieq_true. reflexivity. Qed.

Lemma ieq_trans_false (a b c : string) :
  Http.ieq a b = true -> Http.ieq b c = false -> Http.ieq a c = false.
Proof.
  intros Hab Hbc. destruct (Http.ieq a c) eqn:Hac; [|reflexivity].
  apply ieq_true in Hab, Hac.
  assert (H : Http.ieq b c = true) by (apply ieq_true; congruence).
  congruence.
Qed.

Lemma get_ieq (h : Http.headers) (k1 k2 : string) :
  Http.ieq k1 k2 = true -> Http.get h k1 = Http.get h k2.
Proof.
  intros H. apply ieq_true in H.
  induction h as [|[k v] h IH]; [reflexivity|].
  cbn [Http.get]. unfold Http.ieq in *. rewrite H, IH. reflexivity.
Qed.

Lemma get_remove_other (h : Http.headers) (k k2 : string) :
  Http.ieq k k2 = false ->
  Http.get (Http.remove k h) k2 = Http.get h k2.
Proof.
  intros H. induction h as [|[k' v] h IH]; [reflexivity|].
  cbn [Http.remove filter fst Http.get].
  destruct (Http.ieq k' k) eqn:E; cbn [negb].
  - rewrite (ieq_trans_false _ _ _ E H). exact IH.
  - cbn [Http.get]. fold (Http.remove k h). rewrite IH. reflexivity.
Qed.

Lemma get_set (h : Http.headers) (k v k2 : string) :
  Http.get (Http.set k v h) k2
  = if Http.ieq k k2 then Some v else Http.get h k2.
Proof.
  induction h as [|[k' v'] h IH]; [reflexivity|].
  cbn [Http.set]. destruct (Http.ieq k' k) eqn:E; cbn [Http.get].
  - destruct (Http.ieq k k2) eqn:E2; [reflexivity|].
    rewrite (ieq_trans_false _ _ _ E E2). apply get_remove_other, E2.
  - rewrite IH. destruct (Http.ieq k' k2) eqn:E1; [|reflexivity].
    destruct (Http.ieq k k2) eqn:E2; [|reflexivity].
    apply ieq_true in E1, E2.
    assert (H : Http.ieq k' k = true) by (apply ieq_true; congruence).
    congruence.
Qed.

Lemma get_setdefault_some (h : Http.headers) (k d k2 x : string) :
  Http.get h k2 = Some x ->
  Http.get (Http.setdefault k d h) k2 = Some x.
Proof.
  intros H. unfold Http.setdefault.
  destruct (Http.get h k) eqn:E; [exact H|].
  rewrite get_set. destruct (Http.ieq k k2) eqn:E2; [|exact H].
  rewrite (get_ieq _ _ _ E2) in E. congruence.
Qed.

Section CopyLoop.

(** The upstream reply the loop reads from. *)
Variable up : upstream_response.

Lemma copy_headers_cons (n : string) (names : list string) (r : Response) :
  copy_headers (n :: names) up r
  = copy_headers names up
      match Http.get (up_headers up) n with
      | Some v => if Py.str_truthy v then set_header n v r else r
      | None => r
      end.
Proof. reflexivity. Qed.

Lemma copy_headers_shape (names : list string) (r : Response) :
  status (copy_headers names up r) = status r
  /\ body (copy_headers names up r) = body r.
Proof.
  revert r. induction names as [|n names IH]; intros r; [split; reflexivity|].
  rewrite copy_headers_cons.
  destruct (Http.get (up_headers up) n) as [v|]; [|apply IH].
  destruct (Py.str_truthy v); [|apply IH].
  destruct (IH (set_header n v r)) as [H1 H2]. rewrite H1, H2.
  split; reflexivity.
Qed.

Lemma copy_headers_keeps (names : list string) (r : Response)
  (k v : string) :
  Http.get (up_headers up) k = Some v ->
  Http.get (resp_headers r) k = Some v ->
  Http.get (resp_headers (copy_headers names up r)) k = Some v.
Proof.
  intros Hup. revert r.
  induction names as [|n names IH]; intros r Hr; [exact Hr|].
  rewrite copy_headers_cons.
  destruct (Http.get (up_headers up) n) as [v'|] eqn:En; [|apply IH, Hr].
  destruct (Py.str_truthy v'); [|apply IH, Hr].
  apply IH. cbn [set_header resp_headers]. rewrite get_set.
  destruct (Http.ieq n k) eqn:E; [|exact Hr].
  rewrite (get_ieq _ _ _ E) in En. congruence.
Qed.

Lemma copy_headers_copies (names : list string) (r : Response)
  (k v : string) :
  In k names ->
  Http.get (up_headers up) k = Some v ->
  v <> "" ->
  Http.get (resp_headers (copy_headers names up r)) k = Some v.
Proof.
  intros Hin Hup Hv. revert r.
  induction names as [|n names IH]; intros r; [contradiction Hin|].
  rewrite copy_headers_cons.
  destruct Hin as [->|Hin].
  - rewrite Hup. destruct v; [contradiction Hv; reflexivity|].
    cbn [Py.str_truthy]. apply copy_headers_keeps; [exact Hup|].
    cbn [set_header resp_headers]. rewrite get_set, ieq_refl. reflexivity.
  - destruct (Http.get (up_headers up) n) as [v'|]; [|apply IH, Hin].
    destruct (Py.str_truthy v'); apply IH, Hin.
Qed.

Lemma copy_headers_skips (names : list string) (r : Response) (k : string) :
  Http.get (up_headers up) k = None \/ Http.get (up_headers up) k = Some "" ->
  Http.get (resp_headers (copy_headers names up r)) k
  = Http.get (resp_headers r) k.
Proof.
  intros Hup. revert r.
  induction names as [|n names IH]; intros r; [reflexivity|].
  rewrite copy_headers_cons.
  destruct (Http.get (up_headers up) n) as [v'|] eqn:En; [|apply IH].
  destruct (Py.str_truthy v') eqn:Ev; [|apply IH].
  rewrite IH. cbn [set_header resp_headers]. rewrite get_set.
  destruct (Http.ieq n k) eqn:E; [|reflexivity].
  rewrite (get_ieq _ _ _ E) in En.
  destruct Hup as [Hup|Hup]; rewrite Hup in En; [discriminate En|].
  injection En as <-. discriminate Ev.
Qed.

End CopyLoop.

(** *** The two proxies *)

Lemma cover_reply_spec (up : upstream_response) :
  status (cover_reply up) = status_code up
  /\ body (cover_reply up) = Chunks (filter Py.str_truthy (content up))
  /\ forall h v,
       In h cover_headers ->
       Http.get (up_headers up) h = Some v -> v <> "" ->
       Http.get (resp_headers (cover_reply up)) h = Some v.
Proof.
  unfold cover_reply. cbn [setdefault_header status body resp_headers].
  destruct (copy_headers_shape up cover_headers
              (new_Response (gen up) (status_code up))) as [Hs Hb].
  split; [exact Hs|]. split; [exact Hb|].
  intros h v Hin Hup Hv.
  apply get_setdefault_some, copy_headers_copies; assumption.
Qed.

Lemma stream_reply_spec (up : upstream_response) :
  status (stream_reply up) = status_code up
  /\ body (stream_reply up) = Chunks (filter Py.str_truthy (content up))
  /\ forall h v,
       In h passthrough ->
       Http.get (up_headers up) h = Some v -> v <> "" ->
       Http.get (resp_headers (stream_reply up)) h = Some v.
Proof.
  unfold stream_reply. cbn [setdefault_header status body resp_headers].
  destruct (copy_headers_shape up passthrough
              (new_Response (gen up) (status_code up))) as [Hs Hb].
  split; [exact Hs|]. split; [exact Hb|].
  intros h v Hin Hup Hv.
  apply get_setdefault_some, get_setdefault_some, copy_headers_copies;
    assumption.
Qed.

(** The [Content-Type] the constructor installs shadows both defaults:
    when upstream sends no (or an empty) [Content-Type], the proxies
    answer with [text/html; charset=utf-8], and the [setdefault] calls
    for [image/jpeg] and [audio/mpeg] change nothing. *)
Lemma default_content_type_shadowed (up : upstream_response) :
  Http.get (up_headers up) "Content-Type" = None
  \/ Http.get (up_headers up) "Content-Type" = Some "" ->
  Http.get (resp_headers (cover_reply up)) "Content-Type"
  = Some "text/html; charset=utf-8"
  /\ Http.get (resp_headers (stream_reply up)) "Content-Type"
     = Some "text/html; charset=utf-8".
Proof.
  intros H. split.
  - unfold cover_reply. cbn [setdefault_header resp_headers].
    apply get_setdefault_some. rewrite copy_headers_skips by exact H.
    reflexivity.
  - unfold stream_reply. cbn [setdefault_header resp_headers].
    apply get_setdefault_some, get_setdefault_some.
    rewrite copy_headers_skips by exact H. reflexivity.
Qed.

Lemma forwarded_headers_spec (rq : request) :
  (forall rng,
     Http.get (headers rq) "Range" = Some rng -> rng <> "" ->
     forwarded_headers rq = [("Range", rng)])
  /\ (Http.get (headers rq) "Range" = None
      \/ Http.get (headers rq) "Range" = Some "" ->
      forwarded_headers rq = []).
Proof.
  unfold forwarded_headers. split.
  - intros rng -> Hr. destruct rng; [contradiction Hr|]; reflexivity.
  - intros [-> | ->]; reflexivity.
Qed.

(** Claim C2, as amended.  With credentials configured and a password
    that has a UTF-8 encoding, a request to [api_stream] sends one
    upstream request.  A [Range] header of the client whose value is not
    empty is forwarded as it is, and it is the only header forwarded;
    when the client sent no [Range] header, or an empty one, none is
    forwarded.  When upstream replies, the response
    carries the upstream status code unchanged (206 included), and an
    upstream [Content-Range] whose value is not empty is copied to the
    response unchanged. *)
Theorem stream_passthrough (rq : request) (id : string) (e : env)
  (w : world) :
  has_credentials (cfg e) = true ->
  Py.encodable (SUBSONIC_PASSWORD (cfg e)) = true ->
  exists q,
    sends e (api_stream rq id) w q
    /\ (forall rng,
          Http.get (headers rq) "Range" = Some rng -> rng <> "" ->
          req_headers q = [("Range", rng)])
    /\ (Http.get (headers rq) "Range" = None
        \/ Http.get (headers rq) "Range" = Some "" ->
        req_headers q = [])
    /\ (forall up,
          upstream e q = Replies up ->
          exists resp,
            fst (api_stream rq id e w) = Ok resp
            /\ status resp = status_code up
            /\ (forall v,
                  Http.get (up_headers up) "Content-Range" = Some v ->
                  v <> "" ->
                  Http.get (resp_headers resp) "Content-Range" = Some v)).
Proof.
  intros H He. eexists. unfold sends.
  rewrite (api_stream_run rq id e w H He).
  split; [apply exchange_sent|].
  destruct (forwarded_headers_spec rq) as [Hsome Hnone].
  split; [exact Hsome|]. split; [exact Hnone|].
  intros up Hup. rewrite (exchange_replies _ _ _ _ _ _ Hup).
  exists (stream_reply up). split; [reflexivity|].
  destruct (stream_reply_spec up) as (Hs & _ & Hh).
  split; [exact Hs|].
  intros v Hv Hne. apply Hh; [|exact Hv|exact Hne].
  unfold passthrough. cbn. tauto.
Qed.

Lemma stream_passthrough_witness :
  has_credentials (cfg (demo_env (Replies partial_content))) = true
  /\ Py.encodable
       (SUBSONIC_PASSWORD (cfg (demo_env (Replies partial_content)))) = true
  /\ exists q resp,
       sends (demo_env (Replies partial_content))
         (api_stream (mkRequest [] [("Range", "bytes=5-")]) "so-7") start q
       /\ req_headers q = [("Range", "bytes=5-")]
       /\ fst (api_stream (mkRequest [] [("Range", "bytes=5-")]) "so-7"
                 (demo_env (Replies partial_content)) start) = Ok resp
       /\ status resp = 206
       /\ Http.get (resp_headers resp) "Content-Range"
          = Some "bytes 5-9/10".
Proof.
  split; [reflexivity|]. split; [reflexivity|].
  destruct (stream_passthrough (mkRequest [] [("Range", "bytes=5-")]) "so-7"
              (demo_env (Replies partial_content)) start eq_refl eq_refl)
    as (q & Hq & Hrange & _ & Hreply).
  destruct (Hreply partial_content eq_refl) as (resp & Hrun & Hst & Hcr).
  exists q, resp.
  split; [exact Hq|].
  split; [apply Hrange; [reflexivity | discriminate]|].
  split; [exact Hrun|]. split; [exact Hst|].
  apply Hcr; [reflexivity | discriminate].
Defined.

(** Claim C2 as stated fails on header fields with an empty value: a
    [Range] header the client sent empty is not forwarded, and an
    upstream [Content-Range] that is empty is not copied. *)
Lemma stream_drops_empty_fields :
  Http.get (headers (mkRequest [] [("Range", "")])) "Range" = Some ""
  /\ Http.get (up_headers empty_valued) "Content-Range" = Some ""
  /\ (exists q resp,
        api_stream (mkRequest [] [("Range", "")]) "so-7"
          (demo_env (Replies empty_valued)) start
        = (Ok resp, mkWorld 8 [q])
        /\ Http.get (req_headers q) "Range" = None
        /\ Http.get (resp_headers resp) "Content-Range" = None)
  /\ ~ (forall rq id e w q rng,
          has_credentials (cfg e) = true ->
          sends e (api_stream rq id) w q ->
          Http.get (headers rq) "Range" = Some rng ->
          Http.get (req_headers q) "Range" = Some rng).
Proof.
  split; [reflexivity|]. split; [reflexivity|]. split.
  - eexists _, _. split; [vm_compute; reflexivity|]. split; reflexivity.
  - intros H.
    specialize (H (mkRequest [] [("Range", "")]) "so-7"
                  (demo_env (Replies empty_valued)) start
                  (mkUpstreamRequest
                     (NAVIDROME_URL demo_config ++ "/rest/download")
                     (dict_or (auth_at (demo_env (Replies empty_valued)) 0)
                        [("id", VStr "so-7")])
                     [] true)
                  "" eq_refl).
    assert (X : @None string = Some "");
      [|discriminate X].
    apply H; [|reflexivity].
    unfold sends.
    rewrite (api_stream_run _ _ (demo_env (Replies empty_valued)) start
               eq_refl eq_refl).
    rewrite exchange_sent. reflexivity.
Qed.

(** Claim C8, as amended.  With credentials configured and a password
    that has a UTF-8 encoding, a request to [api_cover] sends one
    upstream request; when upstream replies, the response carries the
    upstream status code unchanged, and each of
    [Content-Type], [Content-Length], [Cache-Control], [ETag],
    [Last-Modified] and [Accept-Ranges] that upstream sent with a value
    that is not empty is copied to the response. *)
Theorem cover_passthrough (id : string) (e : env) (w : world) :
  has_credentials (cfg e) = true ->
  Py.encodable (SUBSONIC_PASSWORD (cfg e)) = true ->
  exists q,
    sends e (api_cover id) w q
    /\ (forall up,
          upstream e q = Replies up ->
          exists resp,
            fst (api_cover id e w) = Ok resp
            /\ status resp = status_code up
            /\ (forall h v,
                  In h ["Content-Type"; "Content-Length"; "Cache-Control";
                        "ETag"; "Last-Modified"; "Accept-Ranges"] ->
                  Http.get (up_headers up) h = Some v ->
                  v <> "" ->
                  Http.get (resp_headers resp) h = Some v)).
Proof.
  intros H He. eexists. unfold sends. rewrite (api_cover_run id e w H He).
  split; [apply exchange_sent|].
  intros up Hup. rewrite (exchange_replies _ _ _ _ _ _ Hup).
  exists (cover_reply up). split; [reflexivity|].
  destruct (cover_reply_spec up) as (Hs & _ & Hh).
  split; [exact Hs | exact Hh].
Qed.

Lemma cover_passthrough_witness :
  has_credentials (cfg (demo_env (Replies empty_valued))) = true
  /\ Py.encodable
       (SUBSONIC_PASSWORD (cfg (demo_env (Replies empty_valued)))) = true
  /\ exists resp,
       fst (api_cover "al-1" (demo_env (Replies empty_valued)) start)
       = Ok resp
       /\ status resp = 200
       /\ Http.get (resp_headers resp) "Content-Type" = Some "image/png".
Proof.
  split; [reflexivity|]. split; [reflexivity|].
  destruct (cover_passthrough "al-1" (demo_env (Replies empty_valued)) start
              eq_refl eq_refl) as (q & _ & Hreply).
  destruct (Hreply empty_valued eq_refl) as (resp & Hrun & Hst & Hh).
  exists resp. split; [exact Hrun|]. split; [exact Hst|].
  apply Hh; [cbn; tauto | reflexivity | discriminate].
Defined.

(** Claim C8 as stated fails on a header field with an empty value:
    upstream sent an [ETag], and the response has none. *)
Lemma cover_drops_empty_fields :
  In "ETag" cover_headers
  /\ Http.get (up_headers empty_valued) "ETag" = Some ""
  /\ (exists resp,
        fst (api_cover "al-1" (demo_env (Replies empty_valued)) start)
        = Ok resp
        /\ Http.get (resp_headers resp) "ETag" = None)
  /\ ~ (forall id e w up resp h v,
          has_credentials (cfg e) = true ->
          answered e (api_cover id) w (Replies up) ->
          fst (api_cover id e w) = Ok resp ->
          In h cover_headers ->
          Http.get (up_headers up) h = Some v ->
          Http.get (resp_headers resp) h = Some v).
Proof.
  split; [cbn; tauto|]. split; [reflexivity|]. split.
  - eexists. split; [vm_compute; reflexivity | reflexivity].
  - intros H.
    assert (X : @None string = Some ""); [|discriminate X].
    apply (H "al-1" (demo_env (Replies empty_valued)) start empty_valued
             (cover_reply empty_valued) "ETag" "").
    + reflexivity.
    + eexists. split; [|reflexivity].
      rewrite (api_cover_run _ (demo_env (Replies empty_valued)) start
                 eq_refl eq_refl).
      apply exchange_sent.
    + rewrite (api_cover_run _ (demo_env (Replies empty_valued)) start
                 eq_refl eq_refl).
      reflexivity.
    + cbn; tauto.
    + reflexivity.
Qed.

(** At an upstream reply without [Content-Type], [api_cover] answers
    [text/html; charset=utf-8] and not [image/jpeg]. *)
Example cover_without_content_type :
  fst (api_cover "al-1"
         (demo_env (Replies (mkUpstreamResponse 200 [] None ["x"]))) start)
  = Ok (mkResponse 200 [("Content-Type", "text/html; charset=utf-8")]
          (Chunks ["x"])).
Proof. vm_compute. reflexivity. Qed.

(** *** The two query views *)

Lemma song_summary_dict (d : dict) :
  song_summary (VDict d) = Ok (song_view (VDict d)).
Proof.
  unfold song_summary, song_view, py_get, field.
  cbn [bind ret Monad_result].
  destruct (truthy match dict_get d "coverArt" with
                   | Some x => x
                   | None => VNone
                   end); reflexivity.
Qed.

Lemma collect_ok (l acc : list value) :
  forallb (fun s => negb (truthy s) || isinstance_dict s) l = true ->
  collect l acc = Ok (acc ++ map song_view (filter truthy l)).
Proof.
  revert acc. induction l as [|s l IH]; intros acc H.
  - cbn. now rewrite app_nil_r.
  - cbn [forallb] in H. apply andb_true_iff in H as [Hs Hl].
    cbn [collect filter]. destruct (truthy s) eqn:Et; cbn [negb].
    + cbn [negb orb] in Hs. destruct s; try discriminate Hs.
      rewrite song_summary_dict. cbn [bind Monad_result].
      rewrite (IH _ Hl). cbn [map]. now rewrite <- app_assoc.
    + exact (IH _ Hl).
Qed.

Lemma summaries_ok (sg : value) :
  song_field_ok sg = true ->
  summaries (py_or sg (VList []))
  = Ok (map song_view (filter truthy (song_entries sg))).
Proof.
  intros H. destruct sg as [| | | | |l|d]; try discriminate H.
  - destruct l as [|s l]; [reflexivity|].
    unfold py_or, summaries. cbn [truthy isinstance_dict py_iter].
    cbn [bind Monad_result]. exact (collect_ok (s :: l) [] H).
  - destruct d as [|kv d]; [reflexivity|].
    unfold py_or, summaries. cbn [truthy isinstance_dict py_iter].
    cbn [bind Monad_result].
    exact (collect_ok [VDict (kv :: d)] [] eq_refl).
Qed.

Lemma random_list_reply_songs (r : upstream_response) (sg : value) :
  inner_song "randomSongs" r = Some sg ->
  song_field_ok sg = true ->
  random_list_reply r
  = Ok (jsonify [("success", VBool true);
                 ("songs",
                  VList (map song_view (filter truthy (song_entries sg))))]).
Proof.
  unfold inner_song, random_list_reply, json. intros Hi Hok.
  destruct (json_body r) as [[| | | | | |top]|]; try discriminate Hi.
  cbn [bind Monad_result py_get].
  destruct (dict_get top "subsonic-response") as [[| | | | | |js]|];
    try discriminate Hi.
  cbn [py_get bind Monad_result].
  destruct (dict_get js "randomSongs") as [[| | | | | |rs]|];
    try discriminate Hi.
  cbn [py_get bind Monad_result]. rewrite Hi.
  rewrite (summaries_ok sg Hok). reflexivity.
Qed.

Lemma search_reply_songs (r : upstream_response) (sg : value) :
  inner_song "searchResult3" r = Some sg ->
  song_field_ok sg = true ->
  search_reply r
  = Ok (jsonify [("success", VBool true);
                 ("results",
                  VList (map song_view (filter truthy (song_entries sg))))]).
Proof.
  unfold inner_song, search_reply, json. intros Hi Hok.
  destruct (json_body r) as [[| | | | | |top]|]; try discriminate Hi.
  cbn [bind Monad_result py_get].
  destruct (dict_get top "subsonic-response") as [[| | | | | |js]|];
    try discriminate Hi.
  cbn [py_get bind Monad_result].
  destruct (dict_get js "searchResult3") as [[| | | | | |rs]|];
    try discriminate Hi.
  cbn [py_get bind Monad_result].
  destruct rs as [|kv rs]; [discriminate Hi|].
  unfold py_or at 1. cbn [truthy py_get bind Monad_result]. rewrite Hi.
  rewrite (summaries_ok sg Hok). reflexivity.
Qed.

Lemma reply_not_object (r : upstream_response) :
  decodes_to_object r = false ->
  random_list_reply r = Ok invalid_json /\ search_reply r = Ok invalid_json.
Proof.
  unfold decodes_to_object, random_list_reply, search_reply, json.
  intros H.
  destruct (json_body r) as [[| | | | | |top]|]; try discriminate H;
    split; reflexivity.
Qed.

Lemma song_view_fields (d : dict) :
  keys (song_view (VDict d)) = ["id"; "title"; "artist"; "coverArt"]
  /\ member (song_view (VDict d)) "id" = Some (field d "id" VNone)
  /\ member (song_view (VDict d)) "title"
     = Some (field d "title" (VStr "Unknown"))
  /\ member (song_view (VDict d)) "artist"
     = Some (field d "artist" (VStr "Unknown"))
  /\ (dict_get d "coverArt" = None ->
      member (song_view (VDict d)) "coverArt" = Some (field d "id" VNone))
  /\ (forall x, dict_get d "coverArt" = Some x -> truthy x = true ->
                member (song_view (VDict d)) "coverArt" = Some x).
Proof.
  repeat split.
  - intros H. cbn. unfold field at 1 2. rewrite H. reflexivity.
  - intros x H Hx. cbn. unfold field at 1 2. rewrite H, Hx. reflexivity.
Qed.

(** Claim C3.  With credentials configured and a password that has a
    UTF-8 encoding, each query view ([api_search] on a query that is not
    blank and a [songCount] that [int] accepts) sends its upstream
    request, and when the reply to it is a parsed envelope whose inner
    [song] field is a single object or a list of objects and null/empty
    entries, the answer is the success body whose list holds, in order,
    the summary of every entry that is not null/empty: a single object
    counts as a one-element list.  A summary has exactly the keys [id],
    [title], [artist], [coverArt]; [title] and [artist] are the song's,
    or ["Unknown"] when the song has none; [coverArt] is the song's when
    it has a non-empty one, and the value of its [id] when it has
    none. *)
Theorem songs_normalised_and_projected (rq : request) (e : env) (w : world)
  (sg : value) :
  has_credentials (cfg e) = true ->
  Py.encodable (SUBSONIC_PASSWORD (cfg e)) = true ->
  song_field_ok sg = true ->
  (exists q,
     sends e (api_random_list rq) w q
     /\ url q = (NAVIDROME_URL (cfg e) ++ "/rest/getRandomSongs")%string
     /\ forall r,
          upstream e q = Replies r ->
          inner_song "randomSongs" r = Some sg ->
          fst (api_random_list rq e w)
          = Ok (jsonify
                  [("success", VBool true);
                   ("songs",
                    VList (map song_view
                             (filter truthy (song_entries sg))))]))
  /\ (search_query rq <> "" ->
      (exists n, int_arg (args_get (args rq) "songCount") 25 = Ok n) ->
      exists q,
        sends e (api_search rq) w q
        /\ url q = (NAVIDROME_URL (cfg e) ++ "/rest/search3")%string
        /\ forall r,
             upstream e q = Replies r ->
             inner_song "searchResult3" r = Some sg ->
             fst (api_search rq e w)
             = Ok (jsonify
                     [("success", VBool true);
                      ("results",
                       VList (map song_view
                                (filter truthy (song_entries sg))))]))
  /\ (forall d, song_entries (VDict d) = [VDict d])
  /\ (forall d,
        keys (song_view (VDict d)) = ["id"; "title"; "artist"; "coverArt"]
        /\ member (song_view (VDict d)) "id"
           = Some match dict_get d "id" with Some x => x | None => VNone end
        /\ member (song_view (VDict d)) "title"
           = Some match dict_get d "title" with
                  | Some x => x
                  | None => VStr "Unknown"
                  end
        /\ member (song_view (VDict d)) "artist"
           = Some match dict_get d "artist" with
                  | Some x => x
                  | None => VStr "Unknown"
                  end
        /\ (dict_get d "coverArt" = None ->
            member (song_view (VDict d)) "coverArt"
            = member (song_view (VDict d)) "id")
        /\ (forall x,
              dict_get d "coverArt" = Some x -> truthy x = true ->
              member (song_view (VDict d)) "coverArt" = Some x)).
Proof.
  intros H He Hok. split; [|split; [|split]].
  - eexists. unfold sends. rewrite (api_random_list_run rq e w H He).
    split; [apply exchange_sent|]. split; [reflexivity|].
    intros r Hup Hi. rewrite (exchange_replies _ _ _ _ _ _ Hup).
    exact (random_list_reply_songs r sg Hi Hok).
  - intros Hq (n & Hn).
    assert (Hq' : Py.str_truthy (search_query rq) = true)
      by (destruct (search_query rq); [contradiction Hq|]; reflexivity).
    eexists. unfold sends. rewrite (api_search_run rq n e w H He Hq' Hn).
    split; [apply exchange_sent|]. split; [reflexivity|].
    intros r Hup Hi. rewrite (exchange_replies _ _ _ _ _ _ Hup).
    exact (search_reply_songs r sg Hi Hok).
  - reflexivity.
  - intros d.
    destruct (song_view_fields d) as (Hk & Hid & Ht & Har & Hc & Hx).
    split; [exact Hk|]. split; [exact Hid|]. split; [exact Ht|].
    split; [exact Har|]. split; [|exact Hx].
    intros Hnone. rewrite (Hc Hnone), Hid. reflexivity.
Qed.

Lemma songs_normalised_and_projected_witness :
  has_credentials (cfg (demo_env (Replies two_answers))) = true
  /\ Py.encodable
       (SUBSONIC_PASSWORD (cfg (demo_env (Replies two_answers)))) = true
  /\ song_field_ok (VDict [("id", VStr "so-1"); ("title", VStr "One")]) = true
  /\ song_field_ok
       (VList [VNone;
               VDict [("id", VStr "so-2"); ("artist", VStr "Two");
                      ("coverArt", VStr "al-2")]]) = true
  /\ (exists q,
        sends (demo_env (Replies two_answers))
          (api_random_list (mkRequest [] [])) start q
        /\ url q = "http://127.0.0.1:4533/rest/getRandomSongs")
  /\ fst (api_random_list (mkRequest [] []) (demo_env (Replies two_answers))
            start)
     = Ok (jsonify
             [("success", VBool true);
              ("songs",
               VList [VDict [("id", VStr "so-1"); ("title", VStr "One");
                             ("artist", VStr "Unknown");
                             ("coverArt", VStr "so-1")]])])
  /\ (exists q,
        sends (demo_env (Replies two_answers))
          (api_search (mkRequest [("query", " two ")] [])) start q
        /\ url q = "http://127.0.0.1:4533/rest/search3")
  /\ fst (api_search (mkRequest [("query", " two ")] [])
            (demo_env (Replies two_answers)) start)
     = Ok (jsonify
             [("success", VBool true);
              ("results",
               VList [VDict [("id", VStr "so-2"); ("title", VStr "Unknown");
                             ("artist", VStr "Two");
                             ("coverArt", VStr "al-2")]])]).
Proof.
  split; [reflexivity|]. split; [reflexivity|].
  split; [reflexivity|]. split; [reflexivity|].
  destruct (songs_normalised_and_projected (mkRequest [] [])
              (demo_env (Replies two_answers)) start
              (VDict [("id", VStr "so-1"); ("title", VStr "One")])
              eq_refl eq_refl eq_refl) as ((q1 & Hs1 & Hu1 & Hr1) & _).
  destruct (songs_normalised_and_projected
              (mkRequest [("query", " two ")] [])
              (demo_env (Replies two_answers)) start
              (VList [VNone;
                      VDict [("id", VStr "so-2"); ("artist", VStr "Two");
                             ("coverArt", VStr "al-2")]])
              eq_refl eq_refl eq_refl) as (_ & Hsearch & _).
  destruct Hsearch as (q2 & Hs2 & Hu2 & Hr2);
    [vm_compute; discriminate | exists 25; reflexivity |].
  split; [exists q1; split; [exact Hs1 | exact Hu1]|].
  split; [rewrite (Hr1 two_answers eq_refl eq_refl); reflexivity|].
  split; [exists q2; split; [exact Hs2 | exact Hu2]|].
  rewrite (Hr2 two_answers eq_refl eq_refl). reflexivity.
Defined.

Example search_drops_null_entries :
  fst (api_search (mkRequest [("query", " two ")] [])
         (demo_env (Replies two_answers)) start)
  = Ok (jsonify
          [("success", VBool true);
           ("results",
            VList [VDict [("id", VStr "so-2"); ("title", VStr "Unknown");
                          ("artist", VStr "Two");
                          ("coverArt", VStr "al-2")]])]).
Proof. vm_compute. reflexivity. Qed.

(** Claim C1, as amended.  With credentials configured, in both query
    views ([api_search] on a query that is not blank and a [songCount]
    that [int] accepts): when the body of the upstream reply does not
    decode as JSON, or decodes to something that is not a JSON object,
    the view returns status 502 with the body
    [{success: false, error: "Upstream invalid JSON"}]; when upstream
    cannot be reached, the view raises the connection error, which the
    framework answers with status 500. *)
Theorem bad_upstream_body_is_502 (rq : request) (e : env) (w : world) :
  has_credentials (cfg e) = true ->
  (forall r,
     answered e (api_random_list rq) w (Replies r) ->
     decodes_to_object r = false ->
     fst (api_random_list rq e w) = Ok invalid_json)
  /\ (answered e (api_random_list rq) w Unreachable ->
      fst (api_random_list rq e w) = Raise ConnectionError)
  /\ (search_query rq <> "" ->
      (exists n, int_arg (args_get (args rq) "songCount") 25 = Ok n) ->
      (forall r,
         answered e (api_search rq) w (Replies r) ->
         decodes_to_object r = false ->
         fst (api_search rq e w) = Ok invalid_json)
      /\ (answered e (api_search rq) w Unreachable ->
          fst (api_search rq e w) = Raise ConnectionError))
  /\ status invalid_json = 502
  /\ body invalid_json
     = JsonBody (VDict [("success", VBool false);
                        ("error", VStr "Upstream invalid JSON")])
  /\ http_status (Raise ConnectionError) = 500.
Proof.
  intros H.
  split; [|split; [|split; [|repeat split]]].
  - intros r Ha Hr.
    rewrite (api_random_list_outcome rq e w _ H Ha).
    exact (proj1 (reply_not_object r Hr)).
  - intros Ha. exact (api_random_list_outcome rq e w _ H Ha).
  - intros Hq Hn. split.
    + intros r Ha Hr.
      rewrite (api_search_outcome rq e w _ H Hq Hn Ha).
      exact (proj2 (reply_not_object r Hr)).
    + intros Ha. exact (api_search_outcome rq e w _ H Hq Hn Ha).
Qed.

Lemma bad_upstream_body_is_502_witness :
  has_credentials (cfg (demo_env (Replies not_json))) = true
  /\ fst (api_random_list (mkRequest [] []) (demo_env (Replies not_json))
            start)
     = Ok invalid_json
  /\ fst (api_search (mkRequest [("query", "abba")] [])
            (demo_env (Replies json_array)) start)
     = Ok invalid_json.
Proof.
  split; [reflexivity|]. split.
  - destruct (bad_upstream_body_is_502 (mkRequest [] [])
                (demo_env (Replies not_json)) start eq_refl) as (Hr & _).
    apply (Hr not_json); [|reflexivity].
    eexists. split; [|reflexivity].
    rewrite (api_random_list_run _ (demo_env (Replies not_json)) start
               eq_refl eq_refl).
    apply exchange_sent.
  - destruct (bad_upstream_body_is_502 (mkRequest [("query", "abba")] [])
                (demo_env (Replies json_array)) start eq_refl)
      as (_ & _ & Hs & _).
    destruct Hs as (Hr & _);
      [vm_compute; discriminate | exists 25; reflexivity |].
    apply (Hr json_array); [|reflexivity].
    eexists. split; [|reflexivity].
    rewrite (api_search_run (mkRequest [("query", "abba")] []) 25
               (demo_env (Replies json_array)) start
               eq_refl eq_refl eq_refl eq_refl).
    apply exchange_sent.
Defined.

(** Claim C1 as stated fails in both views: a reply of status 500 whose
    body is a JSON object without the envelope, and a Subsonic envelope
    reporting a failure, are both answered with status 200 and
    [success: true] over an empty list. *)
Lemma upstream_failure_swallowed :
  expected_envelope failed_upstream = false
  /\ upstream_failed failed_upstream = true
  /\ upstream_failed subsonic_failure = true
  /\ fst (api_random_list (mkRequest [] [])
            (demo_env (Replies failed_upstream)) start)
     = Ok (jsonify [("success", VBool true); ("songs", VList [])])
  /\ fst (api_search (mkRequest [("query", "abba")] [])
            (demo_env (Replies failed_upstream)) start)
     = Ok (jsonify [("success", VBool true); ("results", VList [])])
  /\ fst (api_random_list (mkRequest [] [])
            (demo_env (Replies subsonic_failure)) start)
     = Ok (jsonify [("success", VBool true); ("songs", VList [])])
  /\ surfaced (Ok (jsonify [("success", VBool true); ("songs", VList [])]))
     = false
  /\ ~ (forall rq e w r,
          has_credentials (cfg e) = true ->
          answered e (api_random_list rq) w (Replies r) ->
          expected_envelope r = false ->
          http_status (fst (api_random_list rq e w)) = 502)
  /\ ~ (forall rq e w r,
          has_credentials (cfg e) = true ->
          answered e (api_random_list rq) w (Replies r) ->
          upstream_failed r = true ->
          surfaced (fst (api_random_list rq e w)) = true).
Proof.
  assert (Ha : forall r,
             answered (demo_env (Replies r))
               (api_random_list (mkRequest [] [])) start (Replies r)).
  { intros r. eexists. split; [|reflexivity].
    rewrite (api_random_list_run _ (demo_env (Replies r)) start eq_refl
               eq_refl).
    apply exchange_sent. }
  do 7 (split; [vm_compute; reflexivity|]).
  split.
  - intros H.
    specialize (H (mkRequest [] []) (demo_env (Replies failed_upstream))
                  start failed_upstream eq_refl (Ha _) eq_refl).
    vm_compute in H. discriminate H.
  - intros H.
    specialize (H (mkRequest [] []) (demo_env (Replies subsonic_failure))
                  start subsonic_failure eq_refl (Ha _) eq_refl).
    vm_compute in H. discriminate H.
Qed.

(** *** The configuration block *)

(** X1.  The process has both credentials exactly when one of
    [SUBSONIC_USER], [NAVIDROME_USER] is set to a text that is not empty
    and one of [SUBSONIC_PASSWORD], [NAVIDROME_PASS],
    [NAVIDROME_PASSWORD] is. *)
Theorem credentials_from_environment (e : environ) :
  has_credentials (load_config e)
  = (is_set e "SUBSONIC_USER" || is_set e "NAVIDROME_USER")
    && (is_set e "SUBSONIC_PASSWORD" || is_set e "NAVIDROME_PASS"
        || is_set e "NAVIDROME_PASSWORD").
Proof.
  unfold has_credentials, load_config, is_set, env_or, env_get.
  cbn [SUBSONIC_USER SUBSONIC_PASSWORD].
  f_equal.
  - destruct (e "SUBSONIC_USER") as [[|c s]|];
      destruct (e "NAVIDROME_USER") as [[|c' s']|]; reflexivity.
  - destruct (e "SUBSONIC_PASSWORD") as [[|c s]|];
      destruct (e "NAVIDROME_PASS") as [[|c' s']|];
      destruct (e "NAVIDROME_PASSWORD") as [[|c'' s'']|]; reflexivity.
Qed.

(** X2.  Precedence of the variables: a [SUBSONIC_USER] that is not
    empty is the user whatever [NAVIDROME_USER] says, and otherwise the
    user is [NAVIDROME_USER]; the password is the first of
    [SUBSONIC_PASSWORD], [NAVIDROME_PASS], [NAVIDROME_PASSWORD] that is
    set and not empty. *)
Theorem credentials_precedence (e : environ) :
  (is_set e "SUBSONIC_USER" = true ->
   Some (SUBSONIC_USER (load_config e)) = e "SUBSONIC_USER")
  /\ (is_set e "SUBSONIC_USER" = false ->
      SUBSONIC_USER (load_config e) = env_get e "NAVIDROME_USER" "")
  /\ (is_set e "SUBSONIC_PASSWORD" = true ->
      Some (SUBSONIC_PASSWORD (load_config e)) = e "SUBSONIC_PASSWORD")
  /\ (is_set e "SUBSONIC_PASSWORD" = false ->
      is_set e "NAVIDROME_PASS" = true ->
      Some (SUBSONIC_PASSWORD (load_config e)) = e "NAVIDROME_PASS")
  /\ (is_set e "SUBSONIC_PASSWORD" = false ->
      is_set e "NAVIDROME_PASS" = false ->
      SUBSONIC_PASSWORD (load_config e)
      = env_get e "NAVIDROME_PASSWORD" "").
Proof.
  unfold load_config, is_set, env_or, env_get.
  cbn [SUBSONIC_USER SUBSONIC_PASSWORD].
  repeat apply conj.
  - destruct (e "SUBSONIC_USER") as [[|c s]|]; intros H;
      (discriminate H || reflexivity).
  - destruct (e "SUBSONIC_USER") as [[|c s]|]; intros H;
      (discriminate H || reflexivity).
  - destruct (e "SUBSONIC_PASSWORD") as [[|c s]|]; intros H;
      (discriminate H || reflexivity).
  - destruct (e "SUBSONIC_PASSWORD") as [[|c s]|]; intros H;
      try discriminate H;
      destruct (e "NAVIDROME_PASS") as [[|c' s']|]; intros H';
      (discriminate H' || reflexivity).
  - destruct (e "SUBSONIC_PASSWORD") as [[|c s]|]; intros H;
      try discriminate H;
      destruct (e "NAVIDROME_PASS") as [[|c' s']|]; intros H';
      (discriminate H' || reflexivity).
Qed.

(** X3.  Variables set to the empty text are not treated alike: the
    upstream address then falls back (and is never empty, whatever the
    environment), the protocol version and the client name stay empty,
    and [PORT] makes the conversion fail; with [PORT] unset the port is
    5069. *)
Theorem empty_environment_values (e : environ) :
  NAVIDROME_URL (load_config e) <> ""
  /\ (forall v, e "SUBSONIC_VERSION" = Some v ->
                SUBSONIC_VERSION (load_config e) = v)
  /\ (forall v, e "SUBSONIC_CLIENT" = Some v ->
                SUBSONIC_CLIENT (load_config e) = v)
  /\ (e "NAVIDROME_URL" = Some "" -> e "NAVIDROME_BASE_URL" = None ->
      NAVIDROME_URL (load_config e) = "http://127.0.0.1:4533")
  /\ (e "PORT" = Some "" -> load_port e = Raise ValueError)
  /\ (e "PORT" = None -> load_port e = Ok 5069).
Proof.
  unfold load_config, load_port, env_or, env_get.
  cbn [NAVIDROME_URL SUBSONIC_VERSION SUBSONIC_CLIENT].
  repeat apply conj.
  - destruct (e "NAVIDROME_URL") as [[|c s]|];
      destruct (e "NAVIDROME_BASE_URL") as [[|c' s']|];
      cbn [Py.str_truthy]; discriminate.
  - intros v ->. reflexivity.
  - intros v ->. reflexivity.
  - intros -> ->. reflexivity.
  - intros ->. reflexivity.
  - intros ->. reflexivity.
Qed.

(** *** The digest *)

(** X4.  [md5_hex] returns thirty-two characters, each a lower-case
    hexadecimal digit, for every text that has a UTF-8 encoding, and
    raises [UnicodeEncodeError] for every other text: one holding a
    lone surrogate, as an environment value that is not valid UTF-8
    does. *)
Theorem md5_hex_shape (s : string) :
  (Py.encodable s = true ->
   exists t,
     md5_hex s = Ok t
     /\ String.length t = 32%nat
     /\ forallb Bytes.is_hex_char (list_ascii_of_string t) = true)
  /\ (Py.encodable s = false -> md5_hex s = Raise UnicodeEncodeError).
Proof.
  split; intros He.
  - exists (hexdigest_of s). split; [exact (md5_hex_ok s He)|].
    unfold hexdigest_of, MD5.hexdigest.
    destruct (digest_shape (Bytes.bytes_of_string s)) as [Hl Hb].
    split.
    + rewrite hex_length, Hl. reflexivity.
    + apply hex_chars, Hb.
  - exact (md5_hex_raises s He).
Qed.

Lemma md5_hex_shape_witness :
  Py.encodable "sesame" = true
  /\ Py.encodable raw_password = false
  /\ (exists t,
        md5_hex "sesame" = Ok t
        /\ String.length t = 32%nat
        /\ forallb Bytes.is_hex_char (list_ascii_of_string t) = true)
  /\ md5_hex raw_password = Raise UnicodeEncodeError.
Proof.
  split; [reflexivity|]. split; [reflexivity|]. split.
  - exact (proj1 (md5_hex_shape "sesame") eq_refl).
  - exact (proj2 (md5_hex_shape raw_password) eq_refl).
Defined.

(** *** More on the two proxies *)

Lemma answered_reply (e : env) (w : world) (c : nat) (q : upstream_request)
  (f : upstream_response -> result Response) (m : M Response)
  (r : upstream_response) :
  m e w = exchange e w c q f ->
  answered e m w (Replies r) ->
  m e w = (f r, mkWorld c (sent w ++ [q])).
Proof.
  intros Hrun Ha.
  rewrite Hrun. apply exchange_replies.
  exact (exchange_answered _ _ _ _ _ _ _ Hrun Ha).
Qed.

(** X5.  With credentials configured and a password that has a UTF-8
    encoding, [api_cover] and [api_stream] each send exactly one
    upstream request and draw exactly eight bytes of
    entropy, whatever upstream then does.  The request goes to
    [/rest/getCoverArt], respectively [/rest/download], under the
    configured address, is streamed, and its parameters are the six
    auth parameters followed by [id], the identifier of the path
    unchanged.  [api_cover] passes no header; [api_stream] passes no
    header other than [Range]. *)
Theorem proxy_requests (rq : request) (id : string) (e : env) (w : world) :
  has_credentials (cfg e) = true ->
  Py.encodable (SUBSONIC_PASSWORD (cfg e)) = true ->
  snd (api_cover id e w)
  = mkWorld (cursor w + 8)
      (sent w
       ++ [mkUpstreamRequest
             (NAVIDROME_URL (cfg e) ++ "/rest/getCoverArt")
             (auth_at e (cursor w) ++ [("id", VStr id)]) [] true])
  /\ (exists hs,
        snd (api_stream rq id e w)
        = mkWorld (cursor w + 8)
            (sent w
             ++ [mkUpstreamRequest
                   (NAVIDROME_URL (cfg e) ++ "/rest/download")
                   (auth_at e (cursor w) ++ [("id", VStr id)]) hs true])
        /\ forall k, Http.ieq "Range" k = false -> Http.get hs k = None).
Proof.
  intros H He. split.
  - rewrite (api_cover_run id e w H He). unfold exchange.
    destruct (upstream e _); reflexivity.
  - exists (forwarded_headers rq). split.
    + rewrite (api_stream_run rq id e w H He). unfold exchange.
      destruct (upstream e _); reflexivity.
    + intros k Hk. unfold forwarded_headers.
      destruct (Http.get (headers rq) "Range") as [rng|]; [|reflexivity].
      destruct (Py.str_truthy rng); [|reflexivity].
      cbn [Http.get]. rewrite Hk. reflexivity.
Qed.

Lemma proxy_requests_witness :
  has_credentials (cfg (demo_env Unreachable)) = true
  /\ Py.encodable (SUBSONIC_PASSWORD (cfg (demo_env Unreachable))) = true
  /\ sent (snd (api_cover "al-1" (demo_env Unreachable) start))
     = [mkUpstreamRequest "http://127.0.0.1:4533/rest/getCoverArt"
          [("u", VStr "alice");
           ("t", VStr "551657623e34f4be7a5c7075c443e59c");
           ("s", VStr "031425364758697a");
           ("v", VStr "1.16.1");
           ("c", VStr "homarr-webplayer");
           ("f", VStr "json");
           ("id", VStr "al-1")] [] true].
Proof.
  split; [reflexivity|]. split; [reflexivity|].
  destruct (proxy_requests (mkRequest [] []) "al-1" (demo_env Unreachable)
              start eq_refl eq_refl) as (Hc & _).
  rewrite Hc. vm_compute. reflexivity.
Defined.

Lemma get_setdefault_other (h : Http.headers) (k d k2 : string) :
  Http.ieq k k2 = false ->
  Http.get (Http.setdefault k d h) k2 = Http.get h k2.
Proof.
  intros H. unfold Http.setdefault.
  destruct (Http.get h k); [reflexivity|].
  rewrite get_set, H. reflexivity.
Qed.

Lemma get_setdefault_none (h : Http.headers) (k d : string) :
  Http.get h k = None ->
  Http.get (Http.setdefault k d h) k = Some d.
Proof.
  intros H. unfold Http.setdefault. rewrite H.
  rewrite get_set, ieq_refl. reflexivity.
Qed.

Lemma copy_headers_other (up : upstream_response) (names : list string)
  (r : Response) (k : string) :
  (forall n, In n names -> Http.ieq n k = false) ->
  Http.get (resp_headers (copy_headers names up r)) k
  = Http.get (resp_headers r) k.
Proof.
  revert r. induction names as [|n names IH]; intros r Hn; [reflexivity|].
  rewrite copy_headers_cons.
  rewrite IH by (intros n' Hin; apply Hn; right; exact Hin).
  destruct (Http.get (up_headers up) n) as [v|]; [|reflexivity].
  destruct (Py.str_truthy v); [|reflexivity].
  cbn [set_header resp_headers]. rewrite get_set.
  rewrite (Hn n (or_introl eq_refl)). reflexivity.
Qed.

(** X7.  The proxies copy no header outside their lists: a name that
    matches, case folded, none of the six names of [api_cover] is absent
    from its response whatever upstream sent, and likewise for the eight
    names of [api_stream]. *)
Theorem proxy_headers_allow_list (up : upstream_response) (k : string) :
  ((forall n, In n cover_headers -> Http.ieq n k = false) ->
   Http.get (resp_headers (cover_reply up)) k = None)
  /\ ((forall n, In n passthrough -> Http.ieq n k = false) ->
      Http.get (resp_headers (stream_reply up)) k = None).
Proof.
  split; intros Hn.
  - unfold cover_reply. cbn [setdefault_header resp_headers].
    assert (Hct : Http.ieq "Content-Type" k = false)
      by (apply Hn; cbn; tauto).
    rewrite get_setdefault_other by exact Hct.
    rewrite copy_headers_other by exact Hn.
    cbn [new_Response resp_headers Http.get]. rewrite Hct. reflexivity.
  - unfold stream_reply. cbn [setdefault_header resp_headers].
    assert (Hct : Http.ieq "Content-Type" k = false)
      by (apply Hn; cbn; tauto).
    assert (Har : Http.ieq "Accept-Ranges" k = false)
      by (apply Hn; cbn; tauto).
    rewrite !get_setdefault_other by assumption.
    rewrite copy_headers_other by exact Hn.
    cbn [new_Response resp_headers Http.get]. rewrite Hct. reflexivity.
Qed.

Example set_cookie_not_copied :
  Http.get
    (resp_headers
       (cover_reply
          (mkUpstreamResponse 200
             [("Content-Type", "image/png"); ("Set-Cookie", "sid=1")]
             None ["x"])))
    "set-cookie" = None.
Proof. reflexivity. Qed.

(** X8.  When upstream sends no [Accept-Ranges], or an empty one,
    [api_stream] answers [Accept-Ranges: bytes]. *)
Theorem stream_accept_ranges_default (up : upstream_response) :
  Http.get (up_headers up) "Accept-Ranges" = None
  \/ Http.get (up_headers up) "Accept-Ranges" = Some "" ->
  Http.get (resp_headers (stream_reply up)) "Accept-Ranges" = Some "bytes".
Proof.
  intros H. unfold stream_reply. cbn [setdefault_header resp_headers].
  apply get_setdefault_some, get_setdefault_none.
  rewrite copy_headers_skips by exact H. reflexivity.
Qed.

Lemma stream_accept_ranges_default_witness :
  (Http.get (up_headers partial_content) "Accept-Ranges" = None
   \/ Http.get (up_headers partial_content) "Accept-Ranges" = Some "")
  /\ Http.get (resp_headers (stream_reply partial_content)) "Accept-Ranges"
     = Some "bytes".
Proof.
  assert (H : Http.get (up_headers partial_content) "Accept-Ranges" = None
              \/ Http.get (up_headers partial_content) "Accept-Ranges"
                 = Some "") by (left; reflexivity).
  split; [exact H|]. exact (stream_accept_ranges_default partial_content H).
Defined.

(** X9.  The [Content-Type] of both proxies is the upstream one when
    upstream sent one that is not empty, and [text/html; charset=utf-8]
    otherwise: the response is built with that header already in place,
    so the later defaults [image/jpeg] and [audio/mpeg] never apply. *)
Theorem proxy_content_type (up : upstream_response) :
  Http.get (resp_headers (cover_reply up)) "Content-Type"
  = Some (proxied_content_type up)
  /\ Http.get (resp_headers (stream_reply up)) "Content-Type"
     = Some (proxied_content_type up).
Proof.
  unfold proxied_content_type.
  destruct (Http.get (up_headers up) "Content-Type") as [v|] eqn:E.
  - destruct v as [|a v].
    + cbn [Py.str_truthy].
      apply default_content_type_shadowed. right. exact E.
    + cbn [Py.str_truthy].
      destruct (cover_reply_spec up) as (_ & _ & Hc).
      destruct (stream_reply_spec up) as (_ & _ & Hs).
      split; [apply Hc | apply Hs]; try exact E; try discriminate;
        cbn; tauto.
  - apply default_content_type_shadowed. left. exact E.
Qed.

Example bare_reply_content_type :
  proxied_content_type bare_reply = "text/html; charset=utf-8".
Proof. reflexivity. Qed.

(** *** More on the two query views *)

Lemma api_random_list_answered (rq : request) (e : env) (w : world)
  (r : upstream_response) :
  has_credentials (cfg e) = true ->
  answered e (api_random_list rq) w (Replies r) ->
  fst (api_random_list rq e w) = random_list_reply r.
Proof.
  intros H Ha. exact (api_random_list_outcome rq e w _ H Ha).
Qed.

Lemma api_search_answered (rq : request) (e : env) (w : world)
  (r : upstream_response) :
  has_credentials (cfg e) = true ->
  search_query rq <> "" ->
  (exists n, int_arg (args_get (args rq) "songCount") 25 = Ok n) ->
  answered e (api_search rq) w (Replies r) ->
  fst (api_search rq e w) = search_reply r.
Proof.
  intros H Hq Hn Ha. exact (api_search_outcome rq e w _ H Hq Hn Ha).
Qed.

Lemma demo_answered_random (rq : request) (r : upstream_response) :
  answered (demo_env (Replies r)) (api_random_list rq) start (Replies r).
Proof.
  eexists. split; [|reflexivity].
  rewrite (api_random_list_run rq (demo_env (Replies r)) start eq_refl
             eq_refl).
  apply exchange_sent.
Qed.

Lemma demo_answered_search (rq : request) (n : Z) (r : upstream_response) :
  Py.str_truthy (search_query rq) = true ->
  int_arg (args_get (args rq) "songCount") 25 = Ok n ->
  answered (demo_env (Replies r)) (api_search rq) start (Replies r).
Proof.
  intros Hq Hn. eexists. split; [|reflexivity].
  rewrite (api_search_run rq n (demo_env (Replies r)) start eq_refl eq_refl
             Hq Hn).
  apply exchange_sent.
Qed.

(** X10.  With credentials configured, a password that has a UTF-8
    encoding, a query that is not blank and a [songCount] that [int]
    accepts (25 when the argument is absent),
    [api_search] sends exactly one request, to [/rest/search3], not
    streamed and without headers, whose parameters are the six auth
    parameters followed by [query], the stripped query, [songCount], and
    [albumCount] and [artistCount], both 0. *)
Theorem search_request (rq : request) (n : Z) (e : env) (w : world) :
  has_credentials (cfg e) = true ->
  Py.encodable (SUBSONIC_PASSWORD (cfg e)) = true ->
  search_query rq <> "" ->
  int_arg (args_get (args rq) "songCount") 25 = Ok n ->
  snd (api_search rq e w)
  = mkWorld (cursor w + 8)
      (sent w
       ++ [mkUpstreamRequest (NAVIDROME_URL (cfg e) ++ "/rest/search3")
             (auth_at e (cursor w)
              ++ [("query", VStr (search_query rq)); ("songCount", VInt n);
                  ("albumCount", VInt 0); ("artistCount", VInt 0)])
             [] false])
  /\ (args_get (args rq) "songCount" = None -> n = 25).
Proof.
  intros H He Hq Hn.
  assert (Hq' : Py.str_truthy (search_query rq) = true)
    by (destruct (search_query rq); [contradiction Hq|]; reflexivity).
  split.
  - rewrite (api_search_run rq n e w H He Hq' Hn). unfold exchange.
    destruct (upstream e _); reflexivity.
  - intros Hnone. rewrite Hnone in Hn. cbn in Hn. congruence.
Qed.

Lemma search_request_witness :
  has_credentials (cfg (demo_env Unreachable)) = true
  /\ Py.encodable (SUBSONIC_PASSWORD (cfg (demo_env Unreachable))) = true
  /\ search_query (mkRequest [("query", "  abba ")] []) <> ""
  /\ int_arg (args_get (args (mkRequest [("query", "  abba ")] []))
                "songCount") 25 = Ok 25
  /\ sent (snd (api_search (mkRequest [("query", "  abba ")] [])
                  (demo_env Unreachable) start))
     = [mkUpstreamRequest "http://127.0.0.1:4533/rest/search3"
          [("u", VStr "alice");
           ("t", VStr "551657623e34f4be7a5c7075c443e59c");
           ("s", VStr "031425364758697a");
           ("v", VStr "1.16.1");
           ("c", VStr "homarr-webplayer");
           ("f", VStr "json");
           ("query", VStr "abba");
           ("songCount", VInt 25);
           ("albumCount", VInt 0);
           ("artistCount", VInt 0)] [] false].
Proof.
  assert (Hq : search_query (mkRequest [("query", "  abba ")] []) <> "")
    by (vm_compute; discriminate).
  split; [reflexivity|]. split; [reflexivity|]. split; [exact Hq|].
  split; [reflexivity|].
  destruct (search_request (mkRequest [("query", "  abba ")] []) 25
              (demo_env Unreachable) start eq_refl eq_refl Hq eq_refl)
    as (Hs & _).
  rewrite Hs. vm_compute. reflexivity.
Defined.

Lemma summaries_falsy (sg : value) :
  truthy sg = false -> summaries (py_or sg (VList [])) = Ok [].
Proof. intros H. unfold py_or. rewrite H. reflexivity. Qed.

Lemma random_list_reply_no_song (r : upstream_response) (top : dict) :
  json_body r = Some (VDict top) ->
  holds_no_song "randomSongs" top = true ->
  random_list_reply r = Ok no_songs.
Proof.
  unfold holds_no_song, random_list_reply, json. intros -> H.
  cbn [bind Monad_result py_get].
  destruct (dict_get top "subsonic-response") as [[| | | | | |js]|];
    try discriminate H; [|reflexivity].
  cbn [bind Monad_result py_get].
  destruct (dict_get js "randomSongs") as [[| | | | | |rs]|];
    try discriminate H; [|reflexivity].
  cbn [bind Monad_result py_get].
  destruct (dict_get rs "song") as [sg|]; [|reflexivity].
  apply negb_true_iff in H. rewrite (summaries_falsy sg H). reflexivity.
Qed.

Lemma search_reply_no_song (r : upstream_response) (top : dict) :
  json_body r = Some (VDict top) ->
  holds_no_song "searchResult3" top = true ->
  search_reply r = Ok no_results.
Proof.
  unfold holds_no_song, search_reply, json. intros -> H.
  cbn [bind Monad_result py_get].
  destruct (dict_get top "subsonic-response") as [[| | | | | |js]|];
    try discriminate H; [|reflexivity].
  cbn [bind Monad_result py_get].
  destruct (dict_get js "searchResult3") as [[| | | | | |rs]|];
    try discriminate H; [|reflexivity].
  cbn [bind Monad_result py_get].
  destruct rs as [|kv rs]; [reflexivity|].
  unfold py_or at 1. cbn [truthy py_get bind Monad_result].
  destruct (dict_get (kv :: rs) "song") as [sg|]; [|reflexivity].
  apply negb_true_iff in H. rewrite (summaries_falsy sg H). reflexivity.
Qed.

(** X11.  A decoded JSON object that holds no song is answered as an
    empty success, in both query views: when the ["subsonic-response"]
    member is missing, or is an object without the view's member
    ([randomSongs], [searchResult3]), or that member is an object whose
    [song] member is missing, null or empty, the view returns status 200
    with [success: true] over an empty list. *)
Theorem empty_envelope_is_success (rq : request) (e : env) (w : world)
  (r : upstream_response) (top : dict) :
  has_credentials (cfg e) = true ->
  json_body r = Some (VDict top) ->
  (answered e (api_random_list rq) w (Replies r) ->
   holds_no_song "randomSongs" top = true ->
   fst (api_random_list rq e w) = Ok no_songs)
  /\ (search_query rq <> "" ->
      (exists n, int_arg (args_get (args rq) "songCount") 25 = Ok n) ->
      answered e (api_search rq) w (Replies r) ->
      holds_no_song "searchResult3" top = true ->
      fst (api_search rq e w) = Ok no_results)
  /\ status no_songs = 200 /\ status no_results = 200.
Proof.
  intros H Hb. repeat apply conj; try reflexivity.
  - intros Ha Hn. rewrite (api_random_list_answered rq e w r H Ha).
    exact (random_list_reply_no_song r top Hb Hn).
  - intros Hq Hc Ha Hn. rewrite (api_search_answered rq e w r H Hq Hc Ha).
    exact (search_reply_no_song r top Hb Hn).
Qed.

Lemma empty_envelope_is_success_witness :
  has_credentials (cfg (demo_env (Replies subsonic_failure))) = true
  /\ json_body subsonic_failure
     = Some (VDict
          [("subsonic-response",
            VDict [("status", VStr "failed"); ("version", VStr "1.16.1");
                   ("error",
                    VDict [("code", VInt 40);
                           ("message",
                            VStr "Wrong username or password")])])])
  /\ fst (api_random_list (mkRequest [] [])
            (demo_env (Replies subsonic_failure)) start) = Ok no_songs.
Proof.
  split; [reflexivity|]. split; [reflexivity|].
  destruct (empty_envelope_is_success (mkRequest [] [])
              (demo_env (Replies subsonic_failure)) start subsonic_failure
              _ eq_refl eq_refl) as (Hr & _).
  apply Hr; [apply demo_answered_random | reflexivity].
Defined.

Lemma random_list_reply_not_object (r : upstream_response) (top : dict) :
  json_body r = Some (VDict top) ->
  (exists v, dict_get top "subsonic-response" = Some v
             /\ isinstance_dict v = false)
  \/ (exists js v, dict_get top "subsonic-response" = Some (VDict js)
                   /\ dict_get js "randomSongs" = Some v
                   /\ isinstance_dict v = false) ->
  random_list_reply r = Raise AttributeError.
Proof.
  unfold random_list_reply, json. intros -> H.
  cbn [bind Monad_result py_get].
  destruct H as [(v & -> & Hv) | (js & v & -> & Hjs & Hv)].
  - destruct v; try reflexivity. discriminate Hv.
  - cbn [bind Monad_result py_get]. rewrite Hjs.
    destruct v; try reflexivity. discriminate Hv.
Qed.

(** X12.  In [api_random_list], a decoded JSON object whose
    ["subsonic-response"] member, or whose [randomSongs] member inside
    it, is present and is not an object (null included) is not answered
    502: the lookup on it raises [AttributeError] outside the [try], and
    the framework answers with status 500. *)
Theorem random_list_member_not_object (rq : request) (e : env) (w : world)
  (r : upstream_response) (top : dict) :
  has_credentials (cfg e) = true ->
  answered e (api_random_list rq) w (Replies r) ->
  json_body r = Some (VDict top) ->
  (exists v, dict_get top "subsonic-response" = Some v
             /\ isinstance_dict v = false)
  \/ (exists js v, dict_get top "subsonic-response" = Some (VDict js)
                   /\ dict_get js "randomSongs" = Some v
                   /\ isinstance_dict v = false) ->
  fst (api_random_list rq e w) = Raise AttributeError
  /\ http_status (fst (api_random_list rq e w)) = 500.
Proof.
  intros H Ha Hb Hv.
  rewrite (api_random_list_answered rq e w r H Ha).
  rewrite (random_list_reply_not_object r top Hb Hv).
  split; reflexivity.
Qed.

Lemma random_list_member_not_object_witness :
  has_credentials (cfg (demo_env (Replies null_random_songs))) = true
  /\ fst (api_random_list (mkRequest [] [])
            (demo_env (Replies null_random_songs)) start)
     = Raise AttributeError.
Proof.
  split; [reflexivity|].
  apply (random_list_member_not_object (mkRequest [] []) _ start
           null_random_songs
           [("subsonic-response", VDict [("randomSongs", VNone)])]).
  - reflexivity.
  - apply demo_answered_random.
  - reflexivity.
  - right. exists [("randomSongs", VNone)], VNone.
    repeat split.
Defined.

Lemma search_reply_member (r : upstream_response) (top js : dict)
  (v : value) :
  json_body r = Some (VDict top) ->
  dict_get top "subsonic-response" = Some (VDict js) ->
  dict_get js "searchResult3" = Some v ->
  isinstance_dict v = false ->
  search_reply r = if truthy v then Raise AttributeError else Ok no_results.
Proof.
  unfold search_reply, json. intros -> Ht Hjs Hv.
  cbn [bind Monad_result py_get]. rewrite Ht.
  cbn [bind Monad_result py_get]. rewrite Hjs.
  unfold py_or at 1.
  destruct (truthy v) eqn:E; [|reflexivity].
  destruct v; try reflexivity. discriminate Hv.
Qed.

(** X13.  [api_search] is more tolerant than [api_random_list] about its
    member: a [searchResult3] that is present, is not an object and is
    null or otherwise empty ([false], [0], [""], [[]]) is answered as an
    empty success, because of the [or {}]; one that is not an object and
    not empty raises [AttributeError] (status 500). *)
Theorem search_member_not_object (rq : request) (e : env) (w : world)
  (r : upstream_response) (top js : dict) (v : value) :
  has_credentials (cfg e) = true ->
  search_query rq <> "" ->
  (exists n, int_arg (args_get (args rq) "songCount") 25 = Ok n) ->
  answered e (api_search rq) w (Replies r) ->
  json_body r = Some (VDict top) ->
  dict_get top "subsonic-response" = Some (VDict js) ->
  dict_get js "searchResult3" = Some v ->
  isinstance_dict v = false ->
  (truthy v = false -> fst (api_search rq e w) = Ok no_results)
  /\ (truthy v = true ->
      fst (api_search rq e w) = Raise AttributeError
      /\ http_status (fst (api_search rq e w)) = 500).
Proof.
  intros H Hq Hc Ha Hb Ht Hjs Hv.
  rewrite (api_search_answered rq e w r H Hq Hc Ha).
  rewrite (search_reply_member r top js v Hb Ht Hjs Hv).
  split; intros ->; [|split]; reflexivity.
Qed.

Lemma search_member_not_object_witness :
  has_credentials (cfg (demo_env (Replies null_search_result))) = true
  /\ search_query (mkRequest [("query", "abba")] []) <> ""
  /\ fst (api_search (mkRequest [("query", "abba")] [])
            (demo_env (Replies null_search_result)) start)
     = Ok no_results.
Proof.
  assert (Hq : search_query (mkRequest [("query", "abba")] []) <> "")
    by (vm_compute; discriminate).
  split; [reflexivity|]. split; [exact Hq|].
  apply (search_member_not_object (mkRequest [("query", "abba")] []) _ start
           null_search_result
           [("subsonic-response", VDict [("searchResult3", VNone)])]
           [("searchResult3", VNone)] VNone).
  - reflexivity.
  - exact Hq.
  - exists 25. reflexivity.
  - apply (demo_answered_search _ 25); reflexivity.
  - reflexivity.
  - reflexivity.
  - reflexivity.
  - reflexivity.
  - reflexivity.
Defined.

Lemma song_summary_not_dict (s : value) :
  isinstance_dict s = false -> song_summary s = Raise AttributeError.
Proof. destruct s; intros H; try reflexivity. discriminate H. Qed.

Lemma collect_bad_entry (l acc : list value) :
  (exists s, In s l /\ truthy s = true /\ isinstance_dict s = false) ->
  collect l acc = Raise AttributeError.
Proof.
  revert acc. induction l as [|s0 l IH]; intros acc (s & Hin & Ht & Hd).
  - contradiction Hin.
  - cbn [collect]. destruct (truthy s0) eqn:E0; cbn [negb].
    + destruct (isinstance_dict s0) eqn:D0.
      * destruct s0; try discriminate D0.
        rewrite song_summary_dict. cbn [bind Monad_result].
        apply IH. exists s. destruct Hin as [<-|Hin];
          [discriminate Hd | repeat split; assumption].
      * rewrite (song_summary_not_dict s0 D0). reflexivity.
    + apply IH. exists s. destruct Hin as [<-|Hin];
        [congruence | repeat split; assumption].
Qed.

Lemma random_list_reply_song (r : upstream_response) (sg : value) :
  inner_song "randomSongs" r = Some sg ->
  random_list_reply r
  = (payload <- summaries (py_or sg (VList [])) ;;
     ret (jsonify [("success", VBool true); ("songs", VList payload)])).
Proof.
  unfold inner_song, random_list_reply, json. intros Hi.
  destruct (json_body r) as [[| | | | | |top]|]; try discriminate Hi.
  cbn [bind Monad_result py_get].
  destruct (dict_get top "subsonic-response") as [[| | | | | |js]|];
    try discriminate Hi.
  cbn [py_get bind Monad_result].
  destruct (dict_get js "randomSongs") as [[| | | | | |rs]|];
    try discriminate Hi.
  cbn [py_get bind Monad_result]. rewrite Hi. reflexivity.
Qed.

Lemma search_reply_song (r : upstream_response) (sg : value) :
  inner_song "searchResult3" r = Some sg ->
  search_reply r
  = (results <- summaries (py_or sg (VList [])) ;;
     ret (jsonify [("success", VBool true); ("results", VList results)])).
Proof.
  unfold inner_song, search_reply, json. intros Hi.
  destruct (json_body r) as [[| | | | | |top]|]; try discriminate Hi.
  cbn [bind Monad_result py_get].
  destruct (dict_get top "subsonic-response") as [[| | | | | |js]|];
    try discriminate Hi.
  cbn [py_get bind Monad_result].
  destruct (dict_get js "searchResult3") as [[| | | | | |rs]|];
    try discriminate Hi.
  cbn [py_get bind Monad_result].
  destruct rs as [|kv rs]; [discriminate Hi|].
  unfold py_or at 1. cbn [truthy py_get bind Monad_result]. rewrite Hi.
  reflexivity.
Qed.

(** X14.  One malformed entry fails the whole answer: when the [song]
    list of the envelope has an entry that is neither null/empty nor an
    object, both query views raise [AttributeError] (status 500),
    however many well-formed songs the list also holds. *)
Theorem one_bad_entry_fails_all (rq : request) (e : env) (w : world)
  (r : upstream_response) (l : list value) (bad : value) :
  has_credentials (cfg e) = true ->
  In bad l -> truthy bad = true -> isinstance_dict bad = false ->
  (answered e (api_random_list rq) w (Replies r) ->
   inner_song "randomSongs" r = Some (VList l) ->
   fst (api_random_list rq e w) = Raise AttributeError)
  /\ (search_query rq <> "" ->
      (exists n, int_arg (args_get (args rq) "songCount") 25 = Ok n) ->
      answered e (api_search rq) w (Replies r) ->
      inner_song "searchResult3" r = Some (VList l) ->
      fst (api_search rq e w) = Raise AttributeError)
  /\ http_status (Raise AttributeError) = 500.
Proof.
  intros H Hin Ht Hd.
  assert (Hs : summaries (py_or (VList l) (VList [])) = Raise AttributeError).
  { destruct l as [|s0 l]; [contradiction Hin|].
    unfold py_or, summaries. cbn [truthy isinstance_dict py_iter].
    cbn [bind Monad_result]. apply collect_bad_entry.
    exists bad. repeat split; assumption. }
  repeat apply conj; try reflexivity.
  - intros Ha Hi. rewrite (api_random_list_answered rq e w r H Ha).
    rewrite (random_list_reply_song r _ Hi), Hs. reflexivity.
  - intros Hq Hc Ha Hi. rewrite (api_search_answered rq e w r H Hq Hc Ha).
    rewrite (search_reply_song r _ Hi), Hs. reflexivity.
Qed.

Lemma one_bad_entry_fails_all_witness :
  has_credentials (cfg (demo_env (Replies song_list_with_text))) = true
  /\ In (VStr "so-2") [VDict [("id", VStr "so-1")]; VStr "so-2"]
  /\ truthy (VStr "so-2") = true
  /\ isinstance_dict (VStr "so-2") = false
  /\ fst (api_random_list (mkRequest [] [])
            (demo_env (Replies song_list_with_text)) start)
     = Raise AttributeError.
Proof.
  assert (Hin : In (VStr "so-2") [VDict [("id", VStr "so-1")]; VStr "so-2"])
    by (right; left; reflexivity).
  split; [reflexivity|]. split; [exact Hin|].
  split; [reflexivity|]. split; [reflexivity|].
  destruct (one_bad_entry_fails_all (mkRequest [] [])
              (demo_env (Replies song_list_with_text)) start
              song_list_with_text _ (VStr "so-2") eq_refl Hin eq_refl eq_refl)
    as (Hr & _).
  apply Hr; [apply demo_answered_random | reflexivity].
Defined.

Lemma chars_head (s : string) :
  s <> "" -> exists c rest, Py.chars s = c :: rest /\ snd c <> "".
Proof.
  destruct s as [|a r]; [intros H; contradiction H; reflexivity|].
  intros _. rewrite chars_eq. cbv beta iota zeta.
  destruct ((Py.code a <? 194) || (244 <? Py.code a));
    [eexists _, _; split; [reflexivity | discriminate]|].
  destruct r as [|b r2];
    [eexists _, _; split; [reflexivity | discriminate]|].
  destruct (Py.code a <? 224).
  { destruct (Py.is_cont b);
      eexists _, _; split; try reflexivity; discriminate. }
  destruct r2 as [|c r3];
    [eexists _, _; split; [reflexivity | discriminate]|].
  destruct (Py.code a <? 240).
  { destruct (Py.second3 (Py.code a) b && Py.is_cont c);
      eexists _, _; split; try reflexivity; discriminate. }
  destruct r3 as [|d r4];
    [eexists _, _; split; [reflexivity | discriminate]|].
  destruct (Py.second4 (Py.code a) b && Py.is_cont c && Py.is_cont d);
    eexists _, _; split; try reflexivity; discriminate.
Qed.

Lemma summaries_text (s : string) :
  s <> "" -> summaries (py_or (VStr s) (VList [])) = Raise AttributeError.
Proof.
  intros Hs. unfold py_or.
  destruct s as [|a s']; [contradiction Hs; reflexivity|].
  cbn [truthy Py.str_truthy]. unfold summaries.
  cbn [isinstance_dict py_iter bind Monad_result].
  destruct (chars_head (String a s') Hs) as (c & rest & Hc & Hne).
  rewrite Hc. cbn [map]. apply collect_bad_entry.
  exists (VStr (snd c)). split; [left; reflexivity|].
  split; [|reflexivity].
  cbn [truthy]. destruct (snd c); [contradiction Hne|]; reflexivity.
Qed.

Lemma summaries_not_iterable (sg : value) :
  not_iterable sg = true -> truthy sg = true ->
  summaries (py_or sg (VList [])) = Raise TypeError.
Proof.
  intros Hn Ht. unfold py_or. rewrite Ht.
  destruct sg; try discriminate Hn; reflexivity.
Qed.

(** X15.  A [song] member that is neither a list nor an object fails the
    request in both query views: a text that is not empty is walked
    character by character and raises [AttributeError]; a number that is
    not zero, or [true], cannot be walked and raises [TypeError].  Both
    are answered with status 500. *)
Theorem song_field_wrong_type (rq : request) (e : env) (w : world)
  (r : upstream_response) (sg : value) :
  has_credentials (cfg e) = true ->
  truthy sg = true ->
  (answered e (api_random_list rq) w (Replies r) ->
   inner_song "randomSongs" r = Some sg ->
   ((exists s, sg = VStr s) ->
    fst (api_random_list rq e w) = Raise AttributeError)
   /\ (not_iterable sg = true ->
       fst (api_random_list rq e w) = Raise TypeError))
  /\ (search_query rq <> "" ->
      (exists n, int_arg (args_get (args rq) "songCount") 25 = Ok n) ->
      answered e (api_search rq) w (Replies r) ->
      inner_song "searchResult3" r = Some sg ->
      ((exists s, sg = VStr s) ->
       fst (api_search rq e w) = Raise AttributeError)
      /\ (not_iterable sg = true ->
          fst (api_search rq e w) = Raise TypeError))
  /\ http_status (Raise AttributeError) = 500
  /\ http_status (Raise TypeError) = 500.
Proof.
  intros H Ht.
  assert (Htext : (exists s, sg = VStr s) ->
                  summaries (py_or sg (VList [])) = Raise AttributeError).
  { intros (s & ->). apply summaries_text. intros ->. discriminate Ht. }
  repeat apply conj; try reflexivity.
  - intros Ha Hi. rewrite (api_random_list_answered rq e w r H Ha).
    rewrite (random_list_reply_song r _ Hi). split.
    + intros Hs. rewrite (Htext Hs). reflexivity.
    + intros Hn. rewrite (summaries_not_iterable sg Hn Ht). reflexivity.
  - intros Hq Hc Ha Hi. rewrite (api_search_answered rq e w r H Hq Hc Ha).
    rewrite (search_reply_song r _ Hi). split.
    + intros Hs. rewrite (Htext Hs). reflexivity.
    + intros Hn. rewrite (summaries_not_iterable sg Hn Ht). reflexivity.
Qed.

Lemma song_field_wrong_type_witness :
  has_credentials (cfg (demo_env (Replies song_is_number))) = true
  /\ truthy (VInt 3) = true
  /\ fst (api_random_list (mkRequest [] [])
            (demo_env (Replies song_is_number)) start)
     = Raise TypeError.
Proof.
  split; [reflexivity|]. split; [reflexivity|].
  destruct (song_field_wrong_type (mkRequest [] [])
              (demo_env (Replies song_is_number)) start song_is_number
              (VInt 3) eq_refl eq_refl) as (Hr & _).
  destruct Hr as (_ & Hn); [apply demo_answered_random | reflexivity |].
  apply Hn. reflexivity.
Defined.

(** *** The statuses of the query views *)

Lemma song_summary_raises (s : value) (x : exn) :
  song_summary s = Raise x -> x = AttributeError.
Proof.
  destruct s; try (intros H; injection H as <-; reflexivity).
  rewrite song_summary_dict. discriminate.
Qed.

Lemma collect_raises (l acc : list value) (x : exn) :
  collect l acc = Raise x -> x = AttributeError.
Proof.
  revert acc. induction l as [|s l IH]; intros acc; [discriminate|].
  cbn [collect]. destruct (negb (truthy s)); [apply IH|].
  destruct (song_summary s) as [d|y] eqn:E; cbn [bind Monad_result].
  - apply IH.
  - intros Hx. injection Hx as <-. exact (song_summary_raises s y E).
Qed.

Lemma summaries_raises (v : value) (x : exn) :
  summaries v = Raise x -> x = AttributeError \/ x = TypeError.
Proof.
  unfold summaries.
  destruct (py_iter (if isinstance_dict v then VList [v] else v))
    as [items|y] eqn:E; cbn [bind Monad_result].
  - intros H. left. exact (collect_raises items [] x H).
  - intros H. injection H as <-. right.
    destruct v; cbn in E; try discriminate E; injection E as <-; reflexivity.
Qed.

Lemma listing_status (key : string) (v : value) :
  let o :=
    (items <- summaries v ;;
     ret (jsonify [("success", VBool true); (key, VList items)])) in
  http_status o = 200 \/ http_status o = 500.
Proof.
  cbv zeta. destruct (summaries v) as [items|x] eqn:E;
    cbn [bind ret Monad_result].
  - left. reflexivity.
  - right. destruct (summaries_raises v x E) as [-> | ->]; reflexivity.
Qed.

Lemma random_list_reply_status (r : upstream_response) :
  http_status (random_list_reply r) = 200
  \/ http_status (random_list_reply r) = 502
  \/ http_status (random_list_reply r) = 500.
Proof.
  unfold random_list_reply, json.
  destruct (json_body r) as [j|]; cbn [bind Monad_result];
    [|right; left; reflexivity].
  destruct j as [| | | | | |top]; cbn [py_get];
    try (right; left; reflexivity).
  set (js := match dict_get top "subsonic-response" with
             | Some x => x
             | None => VDict []
             end).
  destruct js as [| | | | | |d]; cbn [py_get bind Monad_result];
    try (right; right; reflexivity).
  set (rs := match dict_get d "randomSongs" with
             | Some x => x
             | None => VDict []
             end).
  destruct rs as [| | | | | |d']; cbn [py_get bind Monad_result];
    try (right; right; reflexivity).
  destruct (listing_status "songs"
              (py_or match dict_get d' "song" with
                     | Some x => x
                     | None => VList []
                     end (VList []))) as [H|H];
    [left | right; right]; exact H.
Qed.

Lemma search_reply_status (r : upstream_response) :
  http_status (search_reply r) = 200
  \/ http_status (search_reply r) = 502
  \/ http_status (search_reply r) = 500.
Proof.
  unfold search_reply, json.
  destruct (json_body r) as [j|]; cbn [bind Monad_result];
    [|right; left; reflexivity].
  destruct j as [| | | | | |top]; cbn [py_get];
    try (right; left; reflexivity).
  set (js := match dict_get top "subsonic-response" with
             | Some x => x
             | None => VDict []
             end).
  destruct js as [| | | | | |d]; cbn [py_get bind Monad_result];
    try (right; right; reflexivity).
  set (res := py_or match dict_get d "searchResult3" with
                    | Some x => x
                    | None => VDict []
                    end (VDict [])).
  destruct res as [| | | | | |d']; cbn [py_get bind Monad_result];
    try (right; right; reflexivity).
  destruct (listing_status "results"
              (py_or match dict_get d' "song" with
                     | Some x => x
                     | None => VList []
                     end (VList []))) as [H|H];
    [left | right; right]; exact H.
Qed.

(** X16.  Whatever the request, the configuration and the upstream, the
    query views answer with one of a few statuses of their own and never
    hand an upstream status on: [api_random_list] answers 200, 502 or
    500, and [api_search] 200, 400, 502 or 500. *)
Theorem query_view_statuses (rq : request) (e : env) (w : world) :
  (http_status (fst (api_random_list rq e w)) = 200
   \/ http_status (fst (api_random_list rq e w)) = 502
   \/ http_status (fst (api_random_list rq e w)) = 500)
  /\ (http_status (fst (api_search rq e w)) = 200
      \/ http_status (fst (api_search rq e w)) = 400
      \/ http_status (fst (api_search rq e w)) = 502
      \/ http_status (fst (api_search rq e w)) = 500).
Proof.
  destruct (has_credentials (cfg e)) eqn:H;
    [destruct (Py.encodable (SUBSONIC_PASSWORD (cfg e))) eqn:He|]; split.
  - rewrite (api_random_list_run rq e w H He). unfold exchange.
    destruct (upstream e _) as [r|]; cbn [fst];
      [apply random_list_reply_status | right; right; reflexivity].
  - destruct (Py.str_truthy (search_query rq)) eqn:Hq.
    + destruct (int_arg (args_get (args rq) "songCount") 25) as [n|x] eqn:Hn.
      * rewrite (api_search_run rq n e w H He Hq Hn). unfold exchange.
        destruct (upstream e _) as [r|]; cbn [fst].
        -- destruct (search_reply_status r) as [S|[S|S]]; tauto.
        -- right; right; right; reflexivity.
      * unfold int_arg in Hn.
        destruct (args_get (args rq) "songCount") as [s|] eqn:Hs;
          [|discriminate Hn].
        destruct (Py.int_of_str s) eqn:Hi; [discriminate Hn|].
        rewrite (api_search_bad_songCount rq s e w H He Hq Hs Hi).
        right; right; right; reflexivity.
    + unfold api_search. rewrite Hq. right; left; reflexivity.
  - destruct (views_unencodable e w H He) as (_ & _ & Hr & _).
    rewrite (Hr rq). right; right; reflexivity.
  - destruct (Py.str_truthy (search_query rq)) eqn:Hq.
    + destruct (views_unencodable e w H He) as (_ & _ & _ & Hs).
      rewrite (Hs rq Hq). right; right; right; reflexivity.
    + unfold api_search. rewrite Hq. right; left; reflexivity.
  - unfold api_random_list. run_auth H. right; right; reflexivity.
  - unfold api_search.
    destruct (Py.str_truthy (search_query rq)); cbn [negb].
    + run_auth H. right; right; right; reflexivity.
    + right; left; reflexivity.
Qed.

(** X17.  Edges of the song summary that the defaults do not reach: a
    [title] or [artist] that is present is handed on as it is, a null
    one included, and is not replaced by ["Unknown"]; a [coverArt] that
    is present but null or empty is replaced by the value of [id]; a
    song without [id] gets a null [id]. *)
Theorem song_summary_edges (d : dict) :
  exists v,
    song_summary (VDict d) = Ok v
    /\ (forall x, dict_get d "title" = Some x -> member v "title" = Some x)
    /\ (forall x, dict_get d "artist" = Some x -> member v "artist" = Some x)
    /\ (forall x, dict_get d "coverArt" = Some x -> truthy x = false ->
                  member v "coverArt" = member v "id")
    /\ (dict_get d "id" = None -> member v "id" = Some VNone).
Proof.
  exists (song_view (VDict d)). split; [apply song_summary_dict|].
  cbn [song_view member dict_get String.eqb Ascii.eqb Bool.eqb].
  unfold field. repeat apply conj.
  - intros x ->. reflexivity.
  - intros x ->. reflexivity.
  - intros x -> Hx. rewrite Hx. reflexivity.
  - intros ->. reflexivity.
Qed.

Example null_title_stays_null :
  song_summary (VDict [("id", VStr "so-1"); ("title", VNone);
                       ("coverArt", VStr "")])
  = Ok (VDict [("id", VStr "so-1"); ("title", VNone);
               ("artist", VStr "Unknown"); ("coverArt", VStr "so-1")]).
Proof. reflexivity. Qed.

(** X18.  The proxies do not catch a failure to reach upstream, and do
    not try again: with credentials configured, when the one request of
    [api_cover] or [api_stream] gets no reply, the view raises the
    connection error, which the framework answers with status 500, and
    the log of requests holds that one request only. *)
Theorem proxy_upstream_unreachable (rq : request) (id : string) (e : env)
  (w : world) :
  has_credentials (cfg e) = true ->
  (answered e (api_cover id) w Unreachable ->
   fst (api_cover id e w) = Raise ConnectionError
   /\ List.length (sent (snd (api_cover id e w)))
      = S (List.length (sent w)))
  /\ (answered e (api_stream rq id) w Unreachable ->
      fst (api_stream rq id e w) = Raise ConnectionError
      /\ List.length (sent (snd (api_stream rq id e w)))
         = S (List.length (sent w)))
  /\ http_status (Raise ConnectionError) = 500.
Proof.
  intros H. repeat apply conj; try reflexivity.
  - intros Ha.
    pose proof (api_cover_run id e w H
                  (proj1 (answered_encodable e w _ H) id Ha)) as Hrun.
    pose proof (exchange_answered _ _ _ _ _ _ _ Hrun Ha) as Hup.
    rewrite Hrun, (exchange_unreachable _ _ _ _ _ Hup). cbn [fst snd sent].
    split; [reflexivity|]. rewrite length_app. cbn. lia.
  - intros Ha.
    pose proof (api_stream_run rq id e w H
                  (proj1 (proj2 (answered_encodable e w _ H)) rq id Ha))
      as Hrun.
    pose proof (exchange_answered _ _ _ _ _ _ _ Hrun Ha) as Hup.
    rewrite Hrun, (exchange_unreachable _ _ _ _ _ Hup). cbn [fst snd sent].
    split; [reflexivity|]. rewrite length_app. cbn. lia.
Qed.

Lemma proxy_upstream_unreachable_witness :
  has_credentials (cfg (demo_env Unreachable)) = true
  /\ fst (api_cover "al-1" (demo_env Unreachable) start)
     = Raise ConnectionError
  /\ List.length (sent (snd (api_cover "al-1" (demo_env Unreachable) start)))
     = 1%nat.
Proof.
  split; [reflexivity|].
  destruct (proxy_upstream_unreachable (mkRequest [] []) "al-1"
              (demo_env Unreachable) start eq_refl) as (Hc & _).
  apply Hc. eexists. split; [|reflexivity].
  rewrite (api_cover_run "al-1" (demo_env Unreachable) start eq_refl
             eq_refl).
  apply exchange_sent.
Defined.

(** *** A password that cannot be encoded *)

(** X19.  With both credentials configured but a password that has no
    UTF-8 encoding, no view that needs the auth parameters answers
    properly, whatever the request and the upstream: [api_cover],
    [api_stream], [api_random_list], and [api_search] on a query that is
    not blank, draw the eight bytes of the salt, raise the encoding
    error of [md5_hex], which the framework answers with status 500,
    and send nothing upstream. *)
Theorem unencodable_password_fails (rq : request) (id : string) (e : env)
  (w : world) :
  has_credentials (cfg e) = true ->
  Py.encodable (SUBSONIC_PASSWORD (cfg e)) = false ->
  api_cover id e w
  = (Raise UnicodeEncodeError, mkWorld (cursor w + 8) (sent w))
  /\ api_stream rq id e w
     = (Raise UnicodeEncodeError, mkWorld (cursor w + 8) (sent w))
  /\ api_random_list rq e w
     = (Raise UnicodeEncodeError, mkWorld (cursor w + 8) (sent w))
  /\ (search_query rq <> "" ->
      api_search rq e w
      = (Raise UnicodeEncodeError, mkWorld (cursor w + 8) (sent w)))
  /\ http_status (Raise UnicodeEncodeError) = 500
  /\ (forall a, ~ answered e (api_random_list rq) w a).
Proof.
  intros H He.
  destruct (views_unencodable e w H He) as (Hc & Hs & Hr & Hq).
  split; [apply Hc|]. split; [apply Hs|]. split; [apply Hr|].
  split; [intros Hne; apply Hq, not_blank, Hne|].
  split; [reflexivity|].
  intros a Ha.
  exact (nothing_sent_not_answered _ _ _ _ _ _ (Hr rq) Ha).
Qed.

Lemma unencodable_password_fails_witness :
  has_credentials (cfg (raw_env (Replies two_answers))) = true
  /\ Py.encodable (SUBSONIC_PASSWORD (cfg (raw_env (Replies two_answers))))
     = false
  /\ api_random_list (mkRequest [] []) (raw_env (Replies two_answers)) start
     = (Raise UnicodeEncodeError, mkWorld 8 [])
  /\ api_cover "al-1" (raw_env (Replies two_answers)) start
     = (Raise UnicodeEncodeError, mkWorld 8 []).
Proof.
  split; [reflexivity|]. split; [reflexivity|].
  destruct (unencodable_password_fails (mkRequest [] []) "al-1"
              (raw_env (Replies two_answers)) start eq_refl eq_refl)
    as (Hc & _ & Hr & _).
  split; [exact Hr | exact Hc].
Defined.
